(** * goodwise: verification of [sync_highlights.py]

    The script copies highlights from the GoodLinks SQLite database to the
    Readwise API and remembers, in [last_sync.txt], the timestamp of the
    newest highlight it delivered.

    The development follows the script top-down:
    - [PyFloat]: the operations on timestamps that the script takes from
      the Python runtime and from SQLite ([str], [float], comparison,
      [datetime.fromtimestamp(..).isoformat()]);
    - the two tables and the two SELECT statements of [fetch_new_highlights];
    - Python dictionaries (insertion ordered) and [build_readwise_payload];
    - a state-and-exception monad [IO] over the watermark file and a log of
      the I/O actions performed, in which [get_last_sync_time],
      [fetch_new_highlights], [post_highlights_to_readwise],
      [update_last_sync_time] and [main] are written statement by statement;
    - the module [Py], in which the same functions also raise what the
      file, database and clock calls raise, and which agrees with the
      functions above when none of those calls fails
      ([py_run_without_faults]);
    - the theorems. *)

From Stdlib Require Import ZArith String Ascii DecimalString.
From stdpp Require Import base option list sorting strings.

Open Scope string_scope.

(** ** Timestamps as the runtime provides them

    [h.time] is a SQLite REAL that reaches Python as a [float].  The script
    never computes with it: it compares (in SQL), prints ([str],
    [isoformat]), parses ([float]) and tests truthiness.  These operations
    are the interface below; the order laws are the ones of the non-NaN
    doubles. *)

Class PyFloat := {
  Timestamp : Type;
  (** [x <= y] on timestamps: the order used by [ORDER BY h.time ASC];
      [h.time > ?] is its negation with the arguments swapped. *)
  ts_leb : Timestamp -> Timestamp -> bool;
  (** [bool(x)], as in [if last_sync_time:] *)
  ts_truthy : Timestamp -> bool;
  (** [str(x)] *)
  py_str : Timestamp -> string;
  (** [float(s)]; [None] stands for [ValueError] *)
  py_float : string -> option Timestamp;
  (** [datetime.fromtimestamp(x).isoformat()] *)
  fromtimestamp_isoformat : Timestamp -> string
}.

Class PyFloatOrder (F : PyFloat) : Prop := {
  ts_leb_total : forall a b : Timestamp, ts_leb a b = true \/ ts_leb b a = true;
  ts_leb_trans : forall a b c : Timestamp,
    ts_leb a b = true -> ts_leb b c = true -> ts_leb a c = true
}.

(** ** Python strings: truthiness and [strip]

    A Python [str] is represented by its UTF-8 encoding, one [ascii] per
    byte: emptiness, equality and concatenation are those of the text.
    [str.strip()] removes the characters for which [str.isspace] holds:
    U+0009-000D, U+001C-0020, U+0085, U+00A0, U+1680, U+2000-200A, U+2028,
    U+2029, U+202F, U+205F and U+3000. *)

Definition byte_in (lo hi : nat) (a : ascii) : bool :=
  ((lo <=? nat_of_ascii a)%nat && (nat_of_ascii a <=? hi)%nat).

(** White space encoded on one byte: TAB, LF, VT, FF, CR, FS, GS, RS, US
    and the space. *)
Definition py_isspace (a : ascii) : bool :=
  byte_in 9 13 a || byte_in 28 32 a.

(** White space encoded on two bytes: U+0085 (C2 85) and U+00A0 (C2 A0). *)
Definition py_isspace2 (a b : ascii) : bool :=
  byte_in 194 194 a && (byte_in 133 133 b || byte_in 160 160 b).

(** White space encoded on three bytes: U+1680 (E1 9A 80), U+2000-200A
    (E2 80 80-8A), U+2028, U+2029, U+202F (E2 80 A8, A9, AF), U+205F
    (E2 81 9F) and U+3000 (E3 80 80). *)
Definition py_isspace3 (a b c : ascii) : bool :=
  (byte_in 225 225 a && byte_in 154 154 b && byte_in 128 128 c) ||
  (byte_in 226 226 a && byte_in 128 128 b &&
     (byte_in 128 138 c || byte_in 168 169 c || byte_in 175 175 c)) ||
  (byte_in 226 226 a && byte_in 129 129 b && byte_in 159 159 c) ||
  (byte_in 227 227 a && byte_in 128 128 b && byte_in 128 128 c).

Fixpoint lstrip (s : string) : string :=
  match s with
  | EmptyString => EmptyString
  | String a s1 =>
      if py_isspace a then lstrip s1 else
      match s1 with
      | EmptyString => s
      | String b s2 =>
          if py_isspace2 a b then lstrip s2 else
          match s2 with
          | EmptyString => s
          | String c s3 => if py_isspace3 a b c then lstrip s3 else s
          end
      end
  end.

(** [lstrip] on the reversed bytes: the encodings are read backwards. *)
Fixpoint lstrip_reversed (s : string) : string :=
  match s with
  | EmptyString => EmptyString
  | String a s1 =>
      if py_isspace a then lstrip_reversed s1 else
      match s1 with
      | EmptyString => s
      | String b s2 =>
          if py_isspace2 b a then lstrip_reversed s2 else
          match s2 with
          | EmptyString => s
          | String c s3 => if py_isspace3 c b a then lstrip_reversed s3 else s
          end
      end
  end.

Definition reverse_bytes (s : string) : string :=
  string_of_list_ascii (rev (list_ascii_of_string s)).

Definition rstrip (s : string) : string :=
  reverse_bytes (lstrip_reversed (reverse_bytes s)).

(** [s.strip()] *)
Definition strip (s : string) : string := rstrip (lstrip s).

(** [bool(s)] for a string: the empty string is falsy. *)
Definition str_truthy (s : string) : bool :=
  match s with EmptyString => false | String _ _ => true end.

(** [bool(x)] for a value that is [None] or a string (a nullable TEXT
    column, or the result of [os.getenv]). *)
Definition opt_truthy (x : option string) : bool :=
  match x with None => false | Some s => str_truthy s end.

(** ** Python values stored in a payload dictionary *)

Inductive pyval :=
| PyNone
| PyStr (s : string).

#[global] Instance pyval_eq_dec : EqDecision pyval.
Proof. solve_decision. Defined.

Definition of_nullable (x : option string) : pyval :=
  match x with None => PyNone | Some s => PyStr s end.

(** A [dict] with string keys.  Python dictionaries keep insertion order:
    assigning to an existing key replaces its value in place, assigning to
    a new key appends. *)
Definition dict := list (string * pyval).

Fixpoint dict_get (k : string) (d : dict) : option pyval :=
  match d with
  | [] => None
  | (k', v) :: d' => if String.eqb k k' then Some v else dict_get k d'
  end.

Fixpoint dict_set (d : dict) (k : string) (v : pyval) : dict :=
  match d with
  | [] => [(k, v)]
  | (k', v') :: d' =>
      if String.eqb k k' then (k', v) :: d' else (k', v') :: dict_set d' k v
  end.

(** A dictionary display [{k1: v1, ..., kn: vn}]. *)
Definition dict_literal (items : list (string * pyval)) : dict :=
  foldl (fun d kv => dict_set d kv.1 kv.2) [] items.

(** [{k: v for k, v in d.items() if v is not None}] *)
Definition dict_drop_none (d : dict) : dict :=
  dict_literal (filter (fun kv => kv.2 <> PyNone) d).

Definition dict_has_key (k : string) (d : dict) : bool :=
  match dict_get k d with Some _ => true | None => false end.

Section Script.
Context {RT : PyFloat}.

(** ** The GoodLinks database

    Columns read by the script.  Nullable TEXT columns arrive in Python as
    [None] or a [str]; [time] is the Unix timestamp (double) of the
    docstrings. *)

Record highlight_row := {
  h_id : Z;
  h_linkId : Z;
  h_content : option string;
  h_note : option string;
  h_time : Timestamp;
  h_color : option Z
}.

Record link_row := {
  l_id : Z;
  l_url : option string;
  l_title : option string;
  l_author : option string
}.

Record Database := {
  highlight : list highlight_row;
  link : list link_row
}.

(** A result row: the tuple
    [(id, linkId, content, note, time, color, url, title, author)]. *)
Definition Highlight : Type :=
  Z * Z * option string * option string * Timestamp * option Z *
  option string * option string * option string.

(** [row[4]] *)
Definition index_4 (row : Highlight) : Timestamp :=
  let '(_, _, _, _, time, _, _, _, _) := row in time.

(** [SELECT h.id, h.linkId, h.content, h.note, h.time, h.color,
            l.url, l.title, l.author] for one pair of rows. *)
Definition select_columns (h : highlight_row) (l : link_row) : Highlight :=
  (h_id h, h_linkId h, h_content h, h_note h, h_time h, h_color h,
   l_url l, l_title l, l_author l).

(** [FROM highlight h JOIN link l ON h.linkId = l.id] *)
Definition join_highlight_link (db : Database) : list Highlight :=
  h ← highlight db;
  l ← link db;
  if decide (h_linkId h = l_id l) then [select_columns h l] else [].

(** [h.time > ?] *)
Definition time_gt (t : Timestamp) (row : Highlight) : Prop :=
  ts_leb (index_4 row) t = false.

(** The order of [ORDER BY h.time ASC]. *)
Definition time_le (r1 r2 : Highlight) : Prop :=
  ts_leb (index_4 r1) (index_4 r2) = true.

#[global] Instance time_gt_dec t row : Decision (time_gt t row).
Proof. unfold time_gt. apply _. Defined.

#[global] Instance time_le_dec r1 r2 : Decision (time_le r1 r2).
Proof. unfold time_le. apply _. Defined.

Definition order_by_time_asc (rows : list Highlight) : list Highlight :=
  merge_sort time_le rows.

(** The query of the [if] branch: [... WHERE h.time > ? ORDER BY h.time ASC] *)
Definition select_since (db : Database) (last_sync_time : Timestamp)
  : list Highlight :=
  order_by_time_asc (filter (time_gt last_sync_time) (join_highlight_link db)).

(** The query of the [else] branch: [... ORDER BY h.time ASC] *)
Definition select_all (db : Database) : list Highlight :=
  order_by_time_asc (join_highlight_link db).

(** ** Payload construction *)

Definition convert_timestamp_to_iso (unix_timestamp : Timestamp) : string :=
  fromtimestamp_isoformat unix_timestamp.

(** [x if x else None] *)
Definition or_none (x : option string) : pyval :=
  if opt_truthy x then of_nullable x else PyNone.

Definition build_readwise_payload (highlight : Highlight) : dict :=
  let '(highlight_id, link_id, content, note, time, color, url, title, author) :=
    highlight in
  let payload := dict_literal [
    ("text", of_nullable content);
    ("source_url", or_none url);
    ("title", or_none title);
    ("author", or_none author);
    ("highlighted_at", PyStr (convert_timestamp_to_iso time))
  ] in
  let payload :=
    if opt_truthy note then dict_set payload "note" (of_nullable note)
    else payload in
  dict_drop_none payload.

(** ** The world of one run

    [last_sync.txt] either does not exist or holds a text.  Every I/O action
    of the script is recorded, in program order, in a log. *)

(** Exceptions the script can meet.  [RequestException] carries its message
    and the text of [e.response] when there is a response.  [OtherError]
    stands for the exceptions of the other library calls, by class name:
    UnicodeDecodeError, IsADirectoryError and PermissionError of [open] and
    [f.read], sqlite3.OperationalError, and the ValueError, OverflowError,
    OSError and TypeError of [datetime.fromtimestamp]. *)
Inductive Exn :=
| RequestException (msg : string) (response : option string)
| IndexError
| FileNotFoundError
| OtherError (name : string).

(** The request sent by [requests.post(READWISE_API_URL, json=..., headers=...)]. *)
Record Request := {
  req_url : string;
  req_authorization : string;
  req_content_type : string;
  req_highlights : list dict
}.

(** One constructor per [print] statement of [main]. *)
Inductive Output :=
| OutDryRunBanner
| OutBlank
| OutMissingToken
| OutLastSync (iso : string)
| OutNoPreviousSync
| OutNoNewHighlights
| OutFound (n : nat)
| OutWouldPostHeader
| OutPayloadJson (highlights : list dict)
| OutWouldSync (n : nat)
| OutWouldUpdate (iso : string)
| OutPosting (n : nat)
| OutSynced (n : nat)
| OutUpdated (iso : string)
| OutPostError (e : Exn)
| OutResponse (text : string).

Inductive Event :=
| EvPrint (o : Output)
| EvExists                                   (* os.path.exists(LAST_SYNC_FILE) *)
| EvRead                                     (* open(LAST_SYNC_FILE, "r").read() *)
| EvQuery (last_sync_time : option Timestamp) (* cursor.execute + fetchall *)
| EvPost (r : Request)                       (* requests.post *)
| EvWrite (content : string).                (* open(LAST_SYNC_FILE, "w").write *)

Record World := {
  last_sync_file : option string;
  log : list Event
}.

(** What surrounds a run: the command line, the process environment, the
    database and the remote service.  [readwise r] is [None] when
    [requests.post] returns a response that [raise_for_status] accepts;
    otherwise it is the message and the response text (if any) of the
    [RequestException] that one of the two calls raises. *)
Record Env := {
  dry_run_flag : bool;
  environ_READWISE_API_TOKEN : option string;
  database : Database;
  readwise : Request -> option (string * option string)
}.

Inductive Result (A : Type) :=
| Ok (a : A)
| Raised (e : Exn).
Arguments Ok {A} a.
Arguments Raised {A} e.

Definition IO (A : Type) : Type := World -> Result A * World.

Definition ret {A} (a : A) : IO A := fun w => (Ok a, w).

Definition bind {A B} (m : IO A) (k : A -> IO B) : IO B :=
  fun w =>
    match m w with
    | (Ok a, w') => k a w'
    | (Raised e, w') => (Raised e, w')
    end.

Definition raise {A} (e : Exn) : IO A := fun w => (Raised e, w).

(** [try: body except RequestException as e: handler(e)]; other exceptions
    pass through. *)
Definition try_except_RequestException {A}
    (body : IO A) (handler : Exn -> IO A) : IO A :=
  fun w =>
    match body w with
    | (Raised (RequestException msg resp), w') =>
        handler (RequestException msg resp) w'
    | r => r
    end.

Definition emit (e : Event) : IO unit :=
  fun w => (Ok tt, {| last_sync_file := last_sync_file w; log := log w ++ [e] |}).

Notation "x <- m ;; k" := (bind m (fun x => k))
  (at level 90, m at level 89, right associativity, only parsing).
Notation "m ;;; k" := (bind m (fun _ => k))
  (at level 90, right associativity, only parsing).

Definition print (o : Output) : IO unit := emit (EvPrint o).

(** *** File primitives on [LAST_SYNC_FILE] *)

Definition path_exists : IO bool :=
  fun w => (Ok (bool_decide (is_Some (last_sync_file w))),
            {| last_sync_file := last_sync_file w; log := log w ++ [EvExists] |}).

(** [f.read()] in a [with open(LAST_SYNC_FILE, "r")]; opening a missing
    file raises. *)
Definition read_file : IO string :=
  fun w =>
    match last_sync_file w with
    | Some content =>
        (Ok content,
         {| last_sync_file := last_sync_file w; log := log w ++ [EvRead] |})
    | None => (Raised FileNotFoundError, w)
    end.

Definition write_file (content : string) : IO unit :=
  fun w => (Ok tt,
            {| last_sync_file := Some content; log := log w ++ [EvWrite content] |}).

(** ** The functions of the script *)

Definition LAST_SYNC_FILE : string := "last_sync.txt".
Definition READWISE_API_URL : string := "https://readwise.io/api/v2/highlights/".

Definition get_last_sync_time : IO (option Timestamp) :=
  exists_ <- path_exists ;;
  if exists_ : bool then
    raw <- read_file ;;
    let content := strip raw in
    if str_truthy content then
      match py_float content with
      | Some x => ret (Some x)
      | None => ret None            (* except ValueError: return None *)
      end
    else ret None
  else ret None.

Definition fetch_new_highlights (db : Database)
    (last_sync_time : option Timestamp) : IO (list Highlight) :=
  emit (EvQuery last_sync_time) ;;;
  match last_sync_time with
  | Some t => ret (select_since db t)
  | None => ret (select_all db)
  end.

(** [f"Token {api_token}"] *)
Definition format_token (api_token : option string) : string :=
  "Token " ++ match api_token with Some s => s | None => "None" end.

(** The arguments of [requests.post] in [post_highlights_to_readwise]. *)
Definition build_request (highlights : list Highlight)
    (api_token : option string) : Request :=
  let highlight_payloads := map build_readwise_payload highlights in
  {| req_url := READWISE_API_URL;
     req_authorization := format_token api_token;
     req_content_type := "application/json";
     req_highlights := highlight_payloads |}.

Definition post_highlights_to_readwise
    (net : Request -> option (string * option string))
    (highlights : list Highlight) (api_token : option string) : IO unit :=
  let request := build_request highlights api_token in
  emit (EvPost request) ;;;
  match net request with
  | None => ret tt                                  (* 136-137 return *)
  | Some (msg, response) => raise (RequestException msg response)
  end.

Definition update_last_sync_time (last_highlight_time : Timestamp) : IO unit :=
  write_file (py_str last_highlight_time).

(** [highlights[-1][4]] *)
Definition last_index_4 (highlights : list Highlight) : IO Timestamp :=
  match last highlights with
  | Some row => ret (index_4 row)
  | None => raise IndexError
  end.

Definition main (env : Env) : IO unit :=
  let dry_run := dry_run_flag env in
  (if dry_run then print OutDryRunBanner ;;; print OutBlank else ret tt) ;;;
  let api_token := environ_READWISE_API_TOKEN env in
  if negb dry_run && negb (opt_truthy api_token) then
    print OutMissingToken
  else
    last_sync_time <- get_last_sync_time ;;
    (match last_sync_time with
     | Some t =>
         if ts_truthy t
         then print (OutLastSync (fromtimestamp_isoformat t))
         else print OutNoPreviousSync
     | None => print OutNoPreviousSync
     end) ;;;
    highlights <- fetch_new_highlights (database env) last_sync_time ;;
    match highlights with
    | [] => print OutNoNewHighlights
    | _ :: _ =>
        print (OutFound (length highlights)) ;;;
        print OutBlank ;;;
        let highlight_payloads := map build_readwise_payload highlights in
        if dry_run then
          print OutWouldPostHeader ;;;
          print (OutPayloadJson highlight_payloads) ;;;
          print OutBlank ;;;
          print (OutWouldSync (length highlights)) ;;;
          last_highlight_time <- last_index_4 highlights ;;
          print (OutWouldUpdate (fromtimestamp_isoformat last_highlight_time))
        else
          try_except_RequestException
            (print (OutPosting (length highlights)) ;;;
             post_highlights_to_readwise (readwise env) highlights api_token ;;;
             last_highlight_time <- last_index_4 highlights ;;
             update_last_sync_time last_highlight_time ;;;
             print (OutSynced (length highlights)) ;;;
             print (OutUpdated (fromtimestamp_isoformat last_highlight_time)))
            (fun e =>
               print (OutPostError e) ;;;
               (match e with
                | RequestException _ (Some text) => print (OutResponse text)
                | _ => ret tt
                end) ;;;
               raise e)
    end.

(** One invocation of the script, from an empty log. *)
Definition run (env : Env) (file : option string) : Result unit * World :=
  main env {| last_sync_file := file; log := [] |}.

(** *** Observations on a log *)

Definition is_post (e : Event) : bool :=
  match e with EvPost _ => true | _ => false end.

Definition is_write (e : Event) : bool :=
  match e with EvWrite _ => true | _ => false end.

Definition is_query (e : Event) : bool :=
  match e with EvQuery _ => true | _ => false end.

Definition is_file_read (e : Event) : bool :=
  match e with EvExists | EvRead => true | _ => false end.

Definition is_print (e : Event) : bool :=
  match e with EvPrint _ => true | _ => false end.

Definition count (p : Event -> bool) (l : list Event) : nat :=
  length (List.filter p l).

(** The watermark a run starts from: what [get_last_sync_time] computes
    from the file. *)
Definition watermark_of (file : option string) : option Timestamp :=
  match file with
  | None => None
  | Some raw => if str_truthy (strip raw) then py_float (strip raw) else None
  end.

(** The change set of a run. *)
Definition pending (db : Database) (file : option string) : list Highlight :=
  match watermark_of file with
  | Some t => select_since db t
  | None => select_all db
  end.

(** *** The events of a run, path by path *)

(** Events of [get_last_sync_time]. *)
Definition load_events (file : option string) : list Event :=
  EvExists :: match file with Some _ => [EvRead] | None => [] end.

(** The message printed after loading the watermark (lines 173-176). *)
Definition sync_status (last_sync_time : option Timestamp) : Output :=
  match last_sync_time with
  | Some t =>
      if ts_truthy t then OutLastSync (fromtimestamp_isoformat t)
      else OutNoPreviousSync
  | None => OutNoPreviousSync
  end.

(** Events from the start of [main] up to and including the query. *)
Definition prologue (dry_run : bool) (file : option string) : list Event :=
  (if dry_run then [EvPrint OutDryRunBanner; EvPrint OutBlank] else []) ++
  load_events file ++
  [EvPrint (sync_status (watermark_of file)); EvQuery (watermark_of file)].

(** The credential check of line 167 lets the run continue. *)
Definition credential_ok (env : Env) : bool :=
  dry_run_flag env || opt_truthy (environ_READWISE_API_TOKEN env).

(** The diagnostics of the [except] clause. *)
Definition diagnostics (msg : string) (response : option string) : list Event :=
  EvPrint (OutPostError (RequestException msg response)) ::
  match response with Some text => [EvPrint (OutResponse text)] | None => [] end.

(** *** What a log reports *)

(** The log shows a printed batch of [n] payload items. *)
Definition reports_batch (l : list Event) (n : nat) : Prop :=
  exists batch, In (EvPrint (OutPayloadJson batch)) l /\ length batch = n.

(** The log shows a would-be new watermark. *)
Definition reports_would_be_watermark (l : list Event) : Prop :=
  exists iso, In (EvPrint (OutWouldUpdate iso)) l.

(** The optional fields of a result row, each with its payload key. *)
Definition optional_fields (row : Highlight) : list (string * option string) :=
  let '(_, _, _, note, _, _, url, title, author) := row in
  [("source_url", url); ("title", title); ("author", author); ("note", note)].

(** The round trip in the words of the specification: a field absent from
    the row has no key in the payload, a field present in the row is in
    the payload with the same value. *)
Definition carried_through_as_specified (row : Highlight) : Prop :=
  Forall (fun kf : string * option string =>
            match kf.2 with
            | None => dict_get kf.1 (build_readwise_payload row) = None
            | Some s => dict_get kf.1 (build_readwise_payload row) = Some (PyStr s)
            end)
         (optional_fields row).

(** The round trip as the script performs it: an empty string counts as
    absent. *)
Definition carried_through_when_nonempty (row : Highlight) : Prop :=
  Forall (fun kf : string * option string =>
            dict_get kf.1 (build_readwise_payload row) =
              match kf.2 with
              | None => None
              | Some s => if str_truthy s then Some (PyStr s) else None
              end)
         (optional_fields row).

(** The five paths through [main]. *)
Inductive path (env : Env) (file : option string) : Prop :=
| path_missing_token :
    credential_ok env = false -> path env file
| path_nothing :
    credential_ok env = true -> pending (database env) file = [] ->
    path env file
| path_preview (row : Highlight) :
    dry_run_flag env = true ->
    last (pending (database env) file) = Some row -> path env file
| path_delivered (row : Highlight) :
    dry_run_flag env = false ->
    opt_truthy (environ_READWISE_API_TOKEN env) = true ->
    last (pending (database env) file) = Some row ->
    readwise env (build_request (pending (database env) file)
                    (environ_READWISE_API_TOKEN env)) = None ->
    path env file
| path_failed (msg : string) (response : option string) :
    dry_run_flag env = false ->
    opt_truthy (environ_READWISE_API_TOKEN env) = true ->
    pending (database env) file <> [] ->
    readwise env (build_request (pending (database env) file)
                    (environ_READWISE_API_TOKEN env)) = Some (msg, response) ->
    path env file.

(** *** Referential integrity of the database *)

(** The [highlight] columns of a result row. *)
Definition highlight_part (row : Highlight) : highlight_row :=
  let '(id, linkId, content, note, time, color, _, _, _) := row in
  {| h_id := id; h_linkId := linkId; h_content := content; h_note := note;
     h_time := time; h_color := color |}.

(** [link.id] is a key and every [highlight.linkId] refers to a link. *)
Definition referential_integrity (db : Database) : Prop :=
  NoDup (l_id <$> link db) /\
  forall h, h ∈ highlight db -> h_linkId h ∈ (l_id <$> link db).

(** *** The payload schema *)

(** The keys of a payload item, in the order the script inserts them. *)
Definition payload_key_order : list string :=
  ["text"; "source_url"; "title"; "author"; "highlighted_at"; "note"].

(** [d.keys()] *)
Definition dict_keys (d : dict) : list string := d.*1.

End Script.

Arguments Ok {A} a.
Arguments Raised {A} e.

(** ** A runtime with whole-second timestamps

    Used for the worked scenarios: timestamps are integers, printed and
    parsed in decimal. *)

Definition whole_seconds : PyFloat := {|
  Timestamp := Z;
  ts_leb := Z.leb;
  ts_truthy := fun z => negb (z =? 0)%Z;
  py_str := fun z => NilZero.string_of_int (Z.to_int z);
  py_float := fun s => Z.of_int <$> NilZero.int_of_string s;
  fromtimestamp_isoformat := fun z => "epoch+" ++ NilZero.string_of_int (Z.to_int z) ++ "s"
|}.

Definition mk_highlight (id link : Z) (text : string) (note : option string)
    (time : Z) : @highlight_row whole_seconds :=
  @Build_highlight_row whole_seconds id link (Some text) note time None.

Definition mk_link (id : Z) (url title author : option string)
  : link_row :=
  {| l_id := id; l_url := url; l_title := title; l_author := author |}.

(** Three highlights at 300, 100 and 200 (stored out of order) on two
    documents. *)
Definition sample_db : @Database whole_seconds :=
  @Build_Database whole_seconds
    [ mk_highlight 3 10 "third" None 300;
      mk_highlight 1 10 "first" (Some "a note") 100;
      mk_highlight 2 11 "second" (Some "") 200 ]
    [ mk_link 10 (Some "https://example.org/a") (Some "A") None;
      mk_link 11 None (Some "") (Some "B. Author") ].

Definition empty_db : @Database whole_seconds :=
  @Build_Database whole_seconds [] [].

Definition accepting : Request -> option (string * option string) :=
  fun _ => None.

Definition refusing : Request -> option (string * option string) :=
  fun _ => Some ("500 Server Error", Some "oops").

Definition unreachable : Request -> option (string * option string) :=
  fun _ => Some ("Connection refused", None).

Definition mk_env (dry : bool) (token : option string)
    (db : @Database whole_seconds)
    (net : Request -> option (string * option string)) : @Env whole_seconds :=
  @Build_Env whole_seconds dry token db net.

(** Runs used in the scenarios. *)
Definition delivering_env : @Env whole_seconds :=
  mk_env false (Some "tok") sample_db accepting.

Definition failing_env : @Env whole_seconds :=
  mk_env false (Some "tok") sample_db refusing.

Definition offline_env : @Env whole_seconds :=
  mk_env false (Some "tok") sample_db unreachable.

Definition no_token_env : @Env whole_seconds :=
  mk_env false None sample_db accepting.

Definition preview_env : @Env whole_seconds :=
  mk_env true None sample_db unreachable.

Definition preview_empty_env : @Env whole_seconds :=
  mk_env true None empty_db unreachable.

(** The second highlight joined with its link: the note and the title are
    empty strings, the url is NULL. *)
Definition empty_title_row : @Highlight whole_seconds :=
  (2%Z, 11%Z, Some "second", Some "", 200%Z, None, None, Some "", Some "B. Author").

Definition fresh_world (file : option string) : @World whole_seconds :=
  @Build_World whole_seconds file [].

(** The highlight at 300 joined with its link. *)
Definition newest_row : @Highlight whole_seconds :=
  (3%Z, 10%Z, Some "third", None, 300%Z, None,
   Some "https://example.org/a", Some "A", None).

(** * The script with the failures of its library calls

    The functions above take the library calls of the script at their
    word: an existing file can be read, the database answers and every time
    has an ISO rendering.  The module [Py] writes the same functions with
    the exceptions those calls raise.  Which call fails, and with which
    exception class, is a parameter of the run. *)

Module Py.
Section Faithful.
Context {RT : PyFloat}.

Record Faults := {
  (** [open(LAST_SYNC_FILE, "r")] or [f.read()] raises when the file exists:
      it is a directory, may not be read, or holds bytes that do not
      decode. *)
  read_error : option string;
  (** [sqlite3.connect], [cursor.execute] or [fetchall] raises. *)
  sqlite_error : option string;
  (** [datetime.fromtimestamp(t)] raises: [t] is out of the platform's
      range, NaN, infinite or NULL. *)
  fromtimestamp_error : Timestamp -> option string;
  (** [open(LAST_SYNC_FILE, "w")] raises. *)
  write_error : option string
}.

Notation "x <- m ;; k" := (bind m (fun x => k))
  (at level 90, m at level 89, right associativity, only parsing).
Notation "m ;;; k" := (bind m (fun _ => k))
  (at level 90, right associativity, only parsing).

(** A computation without I/O that returns or raises. *)
Definition of_result {A} (r : Result A) : IO A := fun w => (r, w).

Definition read_file (f : Faults) : IO string :=
  fun w =>
    match last_sync_file w with
    | Some content =>
        match read_error f with
        | Some name =>
            (Raised (OtherError name),
             {| last_sync_file := last_sync_file w; log := log w ++ [EvRead] |})
        | None =>
            (Ok content,
             {| last_sync_file := last_sync_file w; log := log w ++ [EvRead] |})
        end
    | None => (Raised FileNotFoundError, w)
    end.

Definition write_file (f : Faults) (content : string) : IO unit :=
  fun w =>
    match write_error f with
    | Some name => (Raised (OtherError name), w)
    | None =>
        (Ok tt, {| last_sync_file := Some content;
                   log := log w ++ [EvWrite content] |})
    end.

(** Lines 29-37: only [float(content)] is inside the [try]. *)
Definition get_last_sync_time (f : Faults) : IO (option Timestamp) :=
  exists_ <- path_exists ;;
  if exists_ : bool then
    raw <- read_file f ;;
    let content := strip raw in
    if str_truthy content then
      match py_float content with
      | Some x => ret (Some x)
      | None => ret None            (* except ValueError: return None *)
      end
    else ret None
  else ret None.

Definition fetch_new_highlights (f : Faults) (db : Database)
    (last_sync_time : option Timestamp) : IO (list Highlight) :=
  emit (EvQuery last_sync_time) ;;;
  match sqlite_error f with
  | Some name => raise (OtherError name)
  | None =>
      match last_sync_time with
      | Some t => ret (select_since db t)
      | None => ret (select_all db)
      end
  end.

(** [datetime.fromtimestamp(t).isoformat()] *)
Definition convert_timestamp_to_iso (f : Faults) (unix_timestamp : Timestamp)
  : Result string :=
  match fromtimestamp_error f unix_timestamp with
  | Some name => Raised (OtherError name)
  | None => Ok (fromtimestamp_isoformat unix_timestamp)
  end.

(** The dictionary display of lines 94-100 raises when the conversion of
    the time does; otherwise the payload is built as above. *)
Definition build_readwise_payload (f : Faults) (highlight : Highlight)
  : Result dict :=
  match convert_timestamp_to_iso f (index_4 highlight) with
  | Raised e => Raised e
  | Ok _ => Ok (build_readwise_payload highlight)
  end.

(** [[build_readwise_payload(h) for h in highlights]] *)
Fixpoint build_payloads (f : Faults) (highlights : list Highlight)
  : Result (list dict) :=
  match highlights with
  | [] => Ok []
  | h :: rest =>
      match build_readwise_payload f h with
      | Raised e => Raised e
      | Ok payload =>
          match build_payloads f rest with
          | Raised e => Raised e
          | Ok payloads => Ok (payload :: payloads)
          end
      end
  end.

Definition post_highlights_to_readwise (f : Faults)
    (net : Request -> option (string * option string))
    (highlights : list Highlight) (api_token : option string) : IO unit :=
  highlight_payloads <- of_result (build_payloads f highlights) ;;
  let request :=
    {| req_url := READWISE_API_URL;
       req_authorization := format_token api_token;
       req_content_type := "application/json";
       req_highlights := highlight_payloads |} in
  emit (EvPost request) ;;;
  match net request with
  | None => ret tt
  | Some (msg, response) => raise (RequestException msg response)
  end.

Definition update_last_sync_time (f : Faults) (last_highlight_time : Timestamp)
  : IO unit :=
  write_file f (py_str last_highlight_time).

Definition main (f : Faults) (env : Env) : IO unit :=
  let dry_run := dry_run_flag env in
  (if dry_run then print OutDryRunBanner ;;; print OutBlank else ret tt) ;;;
  let api_token := environ_READWISE_API_TOKEN env in
  if negb dry_run && negb (opt_truthy api_token) then
    print OutMissingToken
  else
    last_sync_time <- get_last_sync_time f ;;
    (match last_sync_time with
     | Some t =>
         if ts_truthy t
         then iso <- of_result (convert_timestamp_to_iso f t) ;;
              print (OutLastSync iso)
         else print OutNoPreviousSync
     | None => print OutNoPreviousSync
     end) ;;;
    highlights <- fetch_new_highlights f (database env) last_sync_time ;;
    match highlights with
    | [] => print OutNoNewHighlights
    | _ :: _ =>
        print (OutFound (length highlights)) ;;;
        print OutBlank ;;;
        highlight_payloads <- of_result (build_payloads f highlights) ;;
        if dry_run then
          print OutWouldPostHeader ;;;
          print (OutPayloadJson highlight_payloads) ;;;
          print OutBlank ;;;
          print (OutWouldSync (length highlights)) ;;;
          last_highlight_time <- last_index_4 highlights ;;
          iso <- of_result (convert_timestamp_to_iso f last_highlight_time) ;;
          print (OutWouldUpdate iso)
        else
          try_except_RequestException
            (print (OutPosting (length highlights)) ;;;
             post_highlights_to_readwise f (readwise env) highlights api_token ;;;
             last_highlight_time <- last_index_4 highlights ;;
             update_last_sync_time f last_highlight_time ;;;
             print (OutSynced (length highlights)) ;;;
             iso <- of_result (convert_timestamp_to_iso f last_highlight_time) ;;
             print (OutUpdated iso))
            (fun e =>
               print (OutPostError e) ;;;
               (match e with
                | RequestException _ (Some text) => print (OutResponse text)
                | _ => ret tt
                end) ;;;
               raise e)
    end.

(** One invocation of the script, from an empty log. *)
Definition run (f : Faults) (env : Env) (file : option string)
  : Result unit * World :=
  main f env {| last_sync_file := file; log := [] |}.

(** A computation that leaves the watermark file as it is and adds neither
    a delivery call nor a write to the log, whether it returns or raises. *)
Definition harmless {A} (m : IO A) : Prop :=
  forall w,
    last_sync_file (m w).2 = last_sync_file w /\
    count is_post (log (m w).2) = count is_post (log w) /\
    count is_write (log (m w).2) = count is_write (log w).

(** No library call fails. *)
Definition no_faults : Faults :=
  {| read_error := None; sqlite_error := None;
     fromtimestamp_error := fun _ => None; write_error := None |}.

(** No call of a preview run raises: the watermark file can be read if it
    exists, the database answers, and [datetime.fromtimestamp] accepts the
    loaded watermark (where line 174 converts it) and the pending times. *)
Definition no_fault_before_report (f : Faults) (env : Env)
    (file : option string) : Prop :=
  (is_Some file -> read_error f = None) /\
  sqlite_error f = None /\
  (forall t, watermark_of file = Some t -> ts_truthy t = true ->
             fromtimestamp_error f t = None) /\
  Forall (fun row => fromtimestamp_error f (index_4 row) = None)
         (pending (database env) file).

(** The watermark load in the words of the specification: never fatal. *)
Definition load_is_never_fatal (f : Faults) (w : World) : Prop :=
  exists v, (get_last_sync_time f w).1 = Ok v.

(** A preview run in the words of the specification: with N pending
    records it reports a batch of size N and the would-be new watermark,
    and it neither posts nor writes. *)
Definition preview_reports_as_specified (f : Faults) (env : Env)
    (file : option string) : Prop :=
  let l := log (run f env file).2 in
  reports_batch l (length (pending (database env) file)) /\
  reports_would_be_watermark l /\
  count is_post l = 0 /\ count is_write l = 0 /\
  last_sync_file (run f env file).2 = file.

End Faithful.
End Py.

(** [datetime.fromtimestamp] rejects times before year 1. *)
Definition before_year_one : @Py.Faults whole_seconds :=
  @Py.Build_Faults whole_seconds None None
    (fun t => if (t <? -62135596800)%Z then Some "ValueError" else None)
    None.

(** The bytes FF FE, which are not UTF-8. *)
Definition undecodable_bytes : string :=
  String (ascii_of_nat 255) (String (ascii_of_nat 254) "").

(** The watermark file holds bytes that do not decode. *)
Definition undecodable : @Py.Faults whole_seconds :=
  @Py.Build_Faults whole_seconds (Some "UnicodeDecodeError") None
    (fun _ => None) None.

(** * Properties *)

Section Paths.
Context {RT : PyFloat}.

Ltac exec :=
  unfold run, main, get_last_sync_time, fetch_new_highlights,
    post_highlights_to_readwise, update_last_sync_time, last_index_4,
    try_except_RequestException, print, emit, path_exists, read_file,
    write_file, bind, ret, raise; simpl.

(** [get_last_sync_time] returns [watermark_of] the file and only reads. *)
Lemma get_last_sync_time_run (w : World) :
  get_last_sync_time w =
    (Ok (watermark_of (last_sync_file w)),
     {| last_sync_file := last_sync_file w;
        log := log w ++ load_events (last_sync_file w) |}).
Proof.
  destruct w as [[raw|] l]; exec; unfold watermark_of, load_events; simpl.
  - destruct (str_truthy (strip raw)).
    + destruct (py_float (strip raw)); simpl; by rewrite <- app_assoc.
    + by rewrite <- app_assoc.
  - reflexivity.
Qed.

(** [fetch_new_highlights] on the loaded watermark returns [pending]. *)
Lemma fetch_new_highlights_run (db : Database) (file : option string) (w : World) :
  fetch_new_highlights db (watermark_of file) w =
    (Ok (pending db file),
     {| last_sync_file := last_sync_file w;
        log := log w ++ [EvQuery (watermark_of file)] |}).
Proof.
  unfold pending. exec. by destruct (watermark_of file).
Qed.

Lemma run_missing_token (env : Env) (file : option string) :
  credential_ok env = false ->
  run env file = (Ok tt, {| last_sync_file := file;
                            log := [EvPrint OutMissingToken] |}).
Proof.
  unfold credential_ok. intros Hc. apply orb_false_elim in Hc as [Hd Ht].
  unfold run, main. rewrite Hd, Ht. reflexivity.
Qed.


Lemma print_run (o : Output) (w : World) :
  print o w = (Ok tt, {| last_sync_file := last_sync_file w;
                         log := log w ++ [EvPrint o] |}).
Proof. reflexivity. Qed.

Lemma print_status_run (wm : option Timestamp) (w : World) :
  match wm with
  | Some t =>
      if ts_truthy t
      then print (OutLastSync (fromtimestamp_isoformat t))
      else print OutNoPreviousSync
  | None => print OutNoPreviousSync
  end w =
  (Ok tt, {| last_sync_file := last_sync_file w;
             log := log w ++ [EvPrint (sync_status wm)] |}).
Proof. destruct wm as [t|]; simpl; [destruct (ts_truthy t)|]; reflexivity. Qed.

Lemma last_index_4_run (hl : list Highlight) (row : Highlight) (w : World) :
  last hl = Some row -> last_index_4 hl w = (Ok (index_4 row), w).
Proof. intros H. unfold last_index_4. by rewrite H. Qed.

Lemma post_run (net : Request -> option (string * option string))
    (hl : list Highlight) (tok : option string) (w : World) :
  post_highlights_to_readwise net hl tok w =
    (match net (build_request hl tok) with
     | None => Ok tt
     | Some (msg, response) => Raised (RequestException msg response)
     end,
     {| last_sync_file := last_sync_file w;
        log := log w ++ [EvPost (build_request hl tok)] |}).
Proof.
  unfold post_highlights_to_readwise, bind, emit, ret, raise. simpl.
  destruct (net _) as [[msg response]|]; reflexivity.
Qed.

Lemma update_run (t : Timestamp) (w : World) :
  update_last_sync_time t w =
    (Ok tt, {| last_sync_file := Some (py_str t);
               log := log w ++ [EvWrite (py_str t)] |}).
Proof. reflexivity. Qed.

Ltac step :=
  first [ rewrite print_run | rewrite get_last_sync_time_run
        | rewrite print_status_run | rewrite fetch_new_highlights_run
        | rewrite post_run | rewrite update_run ];
  cbv beta iota; cbn [last_sync_file log].

Ltac norm_log :=
  unfold prologue, diagnostics; simpl; rewrite <- ?app_assoc; reflexivity.

Ltac enter_main Hc :=
  unfold run, main;
  replace (negb (dry_run_flag _) && negb (opt_truthy (environ_READWISE_API_TOKEN _)))
    with false
    by (revert Hc; unfold credential_ok;
        destruct (dry_run_flag _), (opt_truthy _); done);
  cbv [bind ret].

Lemma run_nothing_pending (env : Env) (file : option string) :
  credential_ok env = true ->
  pending (database env) file = [] ->
  run env file =
    (Ok tt, {| last_sync_file := file;
               log := prologue (dry_run_flag env) file ++
                      [EvPrint OutNoNewHighlights] |}).
Proof.
  intros Hc Hp. enter_main Hc.
  destruct (dry_run_flag env); repeat step; rewrite Hp; repeat step.
  all: norm_log.
Qed.

Lemma run_preview (env : Env) (file : option string) (row : Highlight) :
  dry_run_flag env = true ->
  last (pending (database env) file) = Some row ->
  let hl := pending (database env) file in
  run env file =
    (Ok tt, {| last_sync_file := file;
               log := prologue true file ++
                 [EvPrint (OutFound (length hl)); EvPrint OutBlank;
                  EvPrint OutWouldPostHeader;
                  EvPrint (OutPayloadJson (map build_readwise_payload hl));
                  EvPrint OutBlank;
                  EvPrint (OutWouldSync (length hl));
                  EvPrint (OutWouldUpdate (fromtimestamp_isoformat (index_4 row)))] |}).
Proof.
  intros Hd Hl hl. subst hl.
  assert (Hc : credential_ok env = true) by (unfold credential_ok; by rewrite Hd).
  enter_main Hc. rewrite Hd. repeat step.
  destruct (pending (database env) file) as [|h l] eqn:Hp; [done|].
  repeat step. rewrite (last_index_4_run _ row) by done. cbv beta iota.
  repeat step. norm_log.
Qed.


Lemma run_delivered (env : Env) (file : option string) (row : Highlight) :
  dry_run_flag env = false ->
  opt_truthy (environ_READWISE_API_TOKEN env) = true ->
  last (pending (database env) file) = Some row ->
  let hl := pending (database env) file in
  let request := build_request hl (environ_READWISE_API_TOKEN env) in
  readwise env request = None ->
  run env file =
    (Ok tt, {| last_sync_file := Some (py_str (index_4 row));
               log := prologue false file ++
                 [EvPrint (OutFound (length hl)); EvPrint OutBlank;
                  EvPrint (OutPosting (length hl));
                  EvPost request;
                  EvWrite (py_str (index_4 row));
                  EvPrint (OutSynced (length hl));
                  EvPrint (OutUpdated (fromtimestamp_isoformat (index_4 row)))] |}).
Proof.
  intros Hd Ht Hl hl request Hnet. subst hl request.
  assert (Hc : credential_ok env = true) by (unfold credential_ok; by rewrite Hd, Ht).
  enter_main Hc. rewrite Hd. repeat step.
  destruct (pending (database env) file) as [|h l] eqn:Hp; [done|].
  repeat step. cbv [try_except_RequestException bind]. repeat step.
  rewrite Hnet. rewrite (last_index_4_run _ row) by done. cbv beta iota.
  repeat step. norm_log.
Qed.

Lemma run_failed (env : Env) (file : option string)
    (msg : string) (response : option string) :
  dry_run_flag env = false ->
  opt_truthy (environ_READWISE_API_TOKEN env) = true ->
  pending (database env) file <> [] ->
  let hl := pending (database env) file in
  let request := build_request hl (environ_READWISE_API_TOKEN env) in
  readwise env request = Some (msg, response) ->
  run env file =
    (Raised (RequestException msg response),
     {| last_sync_file := file;
        log := prologue false file ++
          [EvPrint (OutFound (length hl)); EvPrint OutBlank;
           EvPrint (OutPosting (length hl));
           EvPost request] ++ diagnostics msg response |}).
Proof.
  intros Hd Ht Hne hl request Hnet. subst hl request.
  assert (Hc : credential_ok env = true) by (unfold credential_ok; by rewrite Hd, Ht).
  enter_main Hc. rewrite Hd. repeat step.
  destruct (pending (database env) file) as [|h l] eqn:Hp; [done|].
  repeat step. cbv [try_except_RequestException bind]. repeat step.
  rewrite Hnet. cbv beta iota. repeat step.
  destruct response as [text|]; repeat step; cbv [ret raise]; norm_log.
Qed.


(** *** Counting events *)

Lemma count_app (p : Event -> bool) (l1 l2 : list Event) :
  count p (l1 ++ l2) = count p l1 + count p l2.
Proof. unfold count. by rewrite List.filter_app, length_app. Qed.

Lemma count_zero_not_In (p : Event -> bool) (l : list Event) (e : Event) :
  count p l = 0 -> p e = true -> ~ In e l.
Proof.
  unfold count. intros Hz He Hin.
  assert (Hf : In e (List.filter p l)) by (apply filter_In; done).
  destruct (List.filter p l); [done | discriminate].
Qed.

Lemma prologue_no_post (dry : bool) (file : option string) :
  count is_post (prologue dry file) = 0.
Proof. destruct dry, file; reflexivity. Qed.

Lemma prologue_no_write (dry : bool) (file : option string) :
  count is_write (prologue dry file) = 0.
Proof. destruct dry, file; reflexivity. Qed.

Lemma diagnostics_prints (msg : string) (response : option string) :
  Forall (fun e => is_print e = true) (diagnostics msg response).
Proof. destruct response; repeat constructor. Qed.

Lemma diagnostics_no_post (msg : string) (response : option string) :
  count is_post (diagnostics msg response) = 0.
Proof. by destruct response. Qed.

Lemma diagnostics_no_write (msg : string) (response : option string) :
  count is_write (diagnostics msg response) = 0.
Proof. by destruct response. Qed.

Lemma query_in_prologue (dry : bool) (file : option string) :
  In (EvQuery (watermark_of file)) (prologue dry file).
Proof.
  unfold prologue. apply in_app_iff. right. apply in_app_iff. right.
  simpl. auto.
Qed.

Lemma prologue_only_reads (dry : bool) (file : option string) (e : Event) :
  In e (prologue dry file) ->
  (exists o, e = EvPrint o /\ o <> OutMissingToken) \/
  is_file_read e = true \/ is_query e = true.
Proof.
  intros Hin. unfold prologue in Hin. rewrite !in_app_iff in Hin.
  destruct Hin as [H|[H|H]].
  - destruct dry; simpl in H; [left | done].
    destruct H as [<-|[<-|[]]]; eexists; split; done.
  - right; left. unfold load_events in H.
    destruct file; simpl in H; intuition subst; reflexivity.
  - simpl in H. destruct H as [<-|[<-|[]]].
    + left. eexists; split; [done|]. unfold sync_status.
      destruct (watermark_of file) as [t|]; [destruct (ts_truthy t)|]; done.
    + right; right; done.
Qed.

(** A run falls on exactly one of the five paths. *)
Lemma run_path (env : Env) (file : option string) : path env file.
Proof.
  destruct (credential_ok env) eqn:Hc; [|by apply path_missing_token].
  destruct (last (pending (database env) file)) as [row|] eqn:Hl.
  - destruct (dry_run_flag env) eqn:Hd; [by eapply path_preview|].
    unfold credential_ok in Hc. rewrite Hd in Hc. simpl in Hc.
    assert (Hne : pending (database env) file <> []) by (intros E; by rewrite E in Hl).
    destruct (readwise env (build_request (pending (database env) file)
                (environ_READWISE_API_TOKEN env))) as [[msg response]|] eqn:Hnet.
    + by eapply path_failed.
    + by eapply path_delivered.
  - apply path_nothing; [done|]. by apply last_None.
Qed.

(** The only delivery call of a run is the one of line 206: the run is not
    a preview, has a token and a non-empty change set, and the request is
    built from that change set. *)
Lemma delivery_call_inv (env : Env) (file : option string) (r : Request) :
  In (EvPost r) (log (run env file).2) ->
  dry_run_flag env = false /\
  opt_truthy (environ_READWISE_API_TOKEN env) = true /\
  pending (database env) file <> [] /\
  r = build_request (pending (database env) file)
        (environ_READWISE_API_TOKEN env).
Proof.
  intros Hin.
  assert (Hpro : forall tl, ~ In (EvPost r) tl ->
            ~ In (EvPost r) (prologue (dry_run_flag env) file ++ tl)).
  { intros tl Htl [H|H]%in_app_iff; [|done]. revert H.
    apply (count_zero_not_In is_post); [apply prologue_no_post|done]. }
  destruct (run_path env file)
    as [Hc|Hc Hp|row Hd Hl|row Hd Ht Hl Hok|m resp Hd Ht Hne Hfail].
  - rewrite (run_missing_token env file Hc) in Hin. cbn [snd log] in Hin.
    simpl in Hin. destruct Hin as [[=]|[]].
  - rewrite (run_nothing_pending env file Hc Hp) in Hin. cbn [snd log] in Hin.
    exfalso. revert Hin. apply Hpro. simpl. intuition discriminate.
  - rewrite (run_preview env file row Hd Hl) in Hin. cbn [snd log] in Hin.
    exfalso. revert Hin. rewrite <- Hd. apply Hpro. simpl. intuition discriminate.
  - rewrite (run_delivered env file row Hd Ht Hl Hok) in Hin.
    cbn [snd log] in Hin. split; [done|]. split; [done|].
    split; [intros E; by rewrite E in Hl|].
    apply in_app_iff in Hin as [Hin|Hin].
    + exfalso. revert Hin.
      apply (count_zero_not_In is_post); [apply prologue_no_post|done].
    + simpl in Hin. destruct Hin as [[=]|[[=]|[[=]|[[= <-]|Hin]]]]; [done|].
      simpl in Hin. intuition discriminate.
  - rewrite (run_failed env file m resp Hd Ht Hne Hfail) in Hin.
    cbn [snd log] in Hin. split; [done|]. split; [done|]. split; [done|].
    rewrite !in_app_iff in Hin. destruct Hin as [Hin|[Hin|Hin]].
    + exfalso. revert Hin.
      apply (count_zero_not_In is_post); [apply prologue_no_post|done].
    + simpl in Hin. destruct Hin as [[=]|[[=]|[[=]|[[= <-]|[]]]]]. done.
    + exfalso. revert Hin.
      apply (count_zero_not_In is_post); [apply diagnostics_no_post|done].
Qed.

End Paths.

Section Orchestrator.
Context {RT : PyFloat}.

(** C9. A run that is not a preview and finds no READWISE_API_TOKEN in the
    environment prints the missing-credential error and returns: the error
    message is the only action it performs, so the watermark file is not
    read, the database is not queried, nothing is posted and nothing is
    written.  A preview run without a token goes on to load the watermark
    and query the database, and never prints that error. *)
Theorem missing_credential_aborts_before_io (env : Env) (file : option string) :
  environ_READWISE_API_TOKEN env = None ->
  if dry_run_flag env
  then In (EvQuery (watermark_of file)) (log (run env file).2) /\
       ~ In (EvPrint OutMissingToken) (log (run env file).2)
  else run env file =
         (Ok tt, {| last_sync_file := file; log := [EvPrint OutMissingToken] |}).
Proof.
  intros Htok. destruct (dry_run_flag env) eqn:Hd.
  - assert (Hc : credential_ok env = true) by (unfold credential_ok; by rewrite Hd).
    assert (Hpro : forall tl : list Event,
      ~ In (EvPrint OutMissingToken) tl ->
      In (EvQuery (watermark_of file)) (prologue true file ++ tl) /\
      ~ In (EvPrint OutMissingToken) (prologue true file ++ tl)).
    { intros tl Htl. split.
      - apply in_app_iff. left. apply query_in_prologue.
      - intros [H|H]%in_app_iff; [|done].
        apply prologue_only_reads in H as [(o & [= <-] & Ho)|[H|H]]; done. }
    destruct (run_path env file) as [Hc'|_ Hp|row _ Hl|row Hd' _ _ _|msg resp Hd' _ _ _];
      try congruence.
    + rewrite (run_nothing_pending env file Hc Hp), Hd. simpl log.
      apply Hpro. simpl. intuition discriminate.
    + rewrite (run_preview env file row Hd Hl). simpl log.
      apply Hpro. simpl. intuition discriminate.
  - apply run_missing_token. unfold credential_ok. by rewrite Hd, Htok.
Qed.

(** C6. When the change set of a run is empty, the run returns normally
    after making no delivery call and no write to the watermark file, whose
    content is the one before the run. *)
Theorem empty_fetch_ends_run_untouched (env : Env) (file : option string) :
  pending (database env) file = [] ->
  exists l,
    run env file = (Ok tt, {| last_sync_file := file; log := l |}) /\
    count is_post l = 0 /\ count is_write l = 0.
Proof.
  intros Hp. destruct (credential_ok env) eqn:Hc.
  - eexists. split; [by apply run_nothing_pending|].
    rewrite !count_app, prologue_no_post, prologue_no_write. done.
  - eexists. split; [by apply run_missing_token|]. done.
Qed.


End Orchestrator.

Section ChangeReader.
Context {RT : PyFloat} {ORD : PyFloatOrder RT}.

#[local] Instance time_le_total : Total time_le.
Proof. intros r1 r2. unfold time_le. apply ts_leb_total. Qed.

#[local] Instance time_le_trans : Transitive time_le.
Proof. intros r1 r2 r3. unfold time_le. apply ts_leb_trans. Qed.

Lemma time_le_refl (r : Highlight) : time_le r r.
Proof. by destruct (time_le_total r r). Qed.

Lemma order_by_time_asc_sorted (rows : list Highlight) :
  StronglySorted time_le (order_by_time_asc rows).
Proof. apply (StronglySorted_merge_sort time_le). Qed.

Lemma order_by_time_asc_perm (rows : list Highlight) :
  order_by_time_asc rows ≡ₚ rows.
Proof. apply (merge_sort_Permutation time_le). Qed.

Lemma pending_sorted (db : Database) (file : option string) :
  StronglySorted time_le (pending db file).
Proof.
  unfold pending, select_since, select_all.
  destruct (watermark_of file); apply order_by_time_asc_sorted.
Qed.

(** Under referential integrity the join has one row per highlight, in
    table order: no annotation is lost or repeated by the join. *)
Lemma join_one_link (h : highlight_row) (links : list link_row) :
  NoDup (l_id <$> links) -> h_linkId h ∈ (l_id <$> links) ->
  exists l,
    (l ← links; if decide (h_linkId h = l_id l) then [select_columns h l] else [])
      = [select_columns h l].
Proof.
  induction links as [|l links IH]; intros Hnd Hin; simpl in *.
  - by apply elem_of_nil in Hin.
  - apply NoDup_cons in Hnd as [Hnotin Hnd].
    destruct (decide (h_linkId h = l_id l)) as [E|NE].
    + exists l. simpl. f_equal.
      assert (Hnone : forall ls : list link_row, h_linkId h ∉ (l_id <$> ls) ->
        (l' ← ls; if decide (h_linkId h = l_id l') then [select_columns h l'] else []) = []).
      { clear. induction ls as [|l' ls IH]; intros Hn; simpl; [done|].
        rewrite fmap_cons in Hn. apply not_elem_of_cons in Hn as [Hne Hn].
        destruct (decide (h_linkId h = l_id l')); [done|]. simpl. by apply IH. }
      apply Hnone. by rewrite E.
    + apply elem_of_cons in Hin as [Hin|Hin]; [done|].
      destruct (IH Hnd Hin) as [l' Hl']. exists l'. simpl. done.
Qed.

Lemma join_keeps_every_highlight (db : Database) :
  referential_integrity db ->
  highlight_part <$> join_highlight_link db = highlight db.
Proof.
  intros [Hnd Hall]. unfold join_highlight_link.
  revert Hall. generalize (highlight db) as hs.
  induction hs as [|h hs IH]; intros Hall; [done|].
  rewrite bind_cons, fmap_app, IH.
  - destruct (join_one_link h (link db) Hnd) as [l ->].
    + apply Hall. by left.
    + by destruct h.
  - intros h' Hh'. apply Hall. by right.
Qed.

(** In an ascending sequence the last element is a maximum. *)
Lemma sorted_last_is_max (l : list Highlight) (row : Highlight) :
  StronglySorted time_le l -> last l = Some row ->
  Forall (fun x => time_le x row) l.
Proof.
  intros Hs [l' ->]%last_Some.
  apply Forall_app. split.
  - apply Forall_forall. intros x Hx.
    apply (StronglySorted_app_1_elem_of time_le l' [row]); [done|done|].
    apply list_elem_of_singleton. done.
  - constructor; [apply time_le_refl | constructor].
Qed.


End ChangeReader.

Section WatermarkStore.
Context {RT : PyFloat}.

(** What a save followed by a load returns: [float] applied to the stripped
    [str] of the saved value. *)
Lemma save_then_load (t : Timestamp) (w : World) :
  (get_last_sync_time (update_last_sync_time t w).2).1 =
    Ok (if str_truthy (strip (py_str t)) then py_float (strip (py_str t))
        else None).
Proof. by rewrite get_last_sync_time_run. Qed.

End WatermarkStore.

Section PayloadTransformer.
Context {RT : PyFloat}.

(** C4 (amended). For each of source_url, title, author and note: the
    payload has no key for it when the field is [None] or the empty string,
    and has the key with the field's value when the field is a non-empty
    string.  No value of the payload is [None]. *)
Theorem optional_fields_round_trip (row : Highlight) :
  carried_through_when_nonempty row /\
  Forall (fun kv : string * pyval => kv.2 <> PyNone) (build_readwise_payload row).
Proof.
  destruct row as [[[[[[[[id lk] content] note] time] color] url] title] author].
  unfold carried_through_when_nonempty, optional_fields.
  destruct content as [content|], note as [[|c0 note]|], url as [[|c1 url]|],
    title as [[|c2 title]|], author as [[|c3 author]|];
    (split; [repeat constructor | vm_compute; repeat constructor; discriminate]).
Qed.

(** C8. The payload has a "note" key exactly when the note of the record is
    a non-empty string, and the value under the key is then that string. *)
Theorem note_included_iff_nonempty (row : Highlight) :
  let '(_, _, _, note, _, _, _, _, _) := row in
  (dict_has_key "note" (build_readwise_payload row) = true <->
     exists s, note = Some s /\ s <> "") /\
  (forall s, note = Some s -> s <> "" ->
     dict_get "note" (build_readwise_payload row) = Some (PyStr s)).
Proof.
  destruct row as [[[[[[[[id lk] content] note] time] color] url] title] author].
  destruct content as [content|], note as [[|c0 note]|], url as [[|c1 url]|],
    title as [[|c2 title]|], author as [[|c3 author]|].
  all: split;
    [ split;
      [ intros H; vm_compute in H; try discriminate; eexists; split; done
      | intros (s & [= <-] & Hs); try done; reflexivity ]
    | intros s [= <-] Hs; try done; reflexivity ].
Qed.

End PayloadTransformer.

(** * Further properties of the script *)

Section PayloadSchema.
Context {RT : PyFloat}.

(** X1. The payload always has "highlighted_at", holding the ISO rendering
    of the record's time.  It has "text" exactly when the content is not
    NULL, and then with the content unchanged: unlike the optional fields,
    an empty content is sent as the empty string. *)
Theorem payload_text_and_time (row : Highlight) :
  let '(_, _, content, _, time, _, _, _, _) := row in
  dict_get "highlighted_at" (build_readwise_payload row) =
    Some (PyStr (convert_timestamp_to_iso time)) /\
  dict_get "text" (build_readwise_payload row) = (PyStr <$> content).
Proof.
  destruct row as [[[[[[[[id lk] content] note] time] color] url] title] author].
  destruct content as [content|], note as [[|c0 note]|], url as [[|c1 url]|],
    title as [[|c2 title]|], author as [[|c3 author]|]; split; reflexivity.
Qed.

Lemma payload_keys_sublist (row : Highlight) :
  dict_keys (build_readwise_payload row) `sublist_of` payload_key_order.
Proof.
  destruct row as [[[[[[[[id lk] content] note] time] color] url] title] author].
  destruct content as [content|], note as [[|c0 note]|], url as [[|c1 url]|],
    title as [[|c2 title]|], author as [[|c3 author]|]; vm_compute.
  all: repeat first [apply sublist_nil | apply sublist_skip | apply sublist_cons].
Qed.

(** X2. The keys of a payload are pairwise distinct, are taken from text,
    source_url, title, author, highlighted_at and note, and appear in that
    order; the identifiers and the color of the record are not sent. *)
Theorem payload_keys_in_schema_order (row : Highlight) :
  dict_keys (build_readwise_payload row) `sublist_of` payload_key_order /\
  NoDup (dict_keys (build_readwise_payload row)).
Proof.
  split; [apply payload_keys_sublist|].
  apply (sublist_NoDup _ payload_key_order); [|apply payload_keys_sublist].
  apply (bool_decide_unpack _). vm_compute. exact I.
Qed.

End PayloadSchema.

Section RunShape.
Context {RT : PyFloat}.

Lemma prologue_one_query (dry : bool) (file : option string) :
  count is_query (prologue dry file) = 1.
Proof. destruct dry, file; reflexivity. Qed.

Lemma diagnostics_no_query (msg : string) (response : option string) :
  count is_query (diagnostics msg response) = 0.
Proof. by destruct response. Qed.

Lemma prologue_starts_with_exists (file : option string) :
  exists tl, prologue false file = EvExists :: tl.
Proof. unfold prologue, load_events. simpl. eauto. Qed.

Lemma prologue_prints (dry : bool) (file : option string) (o : Output) :
  In (EvPrint o) (prologue dry file) ->
  o = OutDryRunBanner \/ o = OutBlank \/ o = sync_status (watermark_of file).
Proof.
  unfold prologue. rewrite !in_app_iff. intros [H|[H|H]].
  - destruct dry; simpl in H; [|done].
    destruct H as [[= <-]|[[= <-]|[]]]; auto.
  - unfold load_events in H. destruct file; simpl in H;
      intuition discriminate.
  - simpl in H. destruct H as [[= <-]|[[=]|[]]]. auto.
Qed.

Lemma sync_status_cases (wm : option Timestamp) :
  sync_status wm = OutNoPreviousSync \/ exists iso, sync_status wm = OutLastSync iso.
Proof.
  destruct wm as [t|]; simpl; [destruct (ts_truthy t)|]; eauto.
Qed.

Lemma batch_not_in_prologue (dry : bool) (file : option string)
    (batch : list dict) :
  ~ In (EvPrint (OutPayloadJson batch)) (prologue dry file).
Proof.
  intros [H|[H|H]]%prologue_prints; try discriminate.
  destruct (sync_status_cases (watermark_of file)) as [E|[iso E]];
    rewrite E in H; discriminate.
Qed.

(** The log of every run, by path. *)
Lemma run_log_cases (env : Env) (file : option string) :
  let hl := pending (database env) file in
  let request := build_request hl (environ_READWISE_API_TOKEN env) in
  (credential_ok env = false /\
   run env file = (Ok tt, {| last_sync_file := file;
                             log := [EvPrint OutMissingToken] |})) \/
  (credential_ok env = true /\ hl = [] /\
   run env file = (Ok tt, {| last_sync_file := file;
                             log := prologue (dry_run_flag env) file ++
                                    [EvPrint OutNoNewHighlights] |})) \/
  (exists row, dry_run_flag env = true /\ last hl = Some row /\
   run env file =
     (Ok tt, {| last_sync_file := file;
                log := prologue true file ++
                  [EvPrint (OutFound (length hl)); EvPrint OutBlank;
                   EvPrint OutWouldPostHeader;
                   EvPrint (OutPayloadJson (map build_readwise_payload hl));
                   EvPrint OutBlank;
                   EvPrint (OutWouldSync (length hl));
                   EvPrint (OutWouldUpdate
                              (fromtimestamp_isoformat (index_4 row)))] |})) \/
  (exists row, dry_run_flag env = false /\
   opt_truthy (environ_READWISE_API_TOKEN env) = true /\
   last hl = Some row /\ readwise env request = None /\
   run env file =
     (Ok tt, {| last_sync_file := Some (py_str (index_4 row));
                log := prologue false file ++
                  [EvPrint (OutFound (length hl)); EvPrint OutBlank;
                   EvPrint (OutPosting (length hl));
                   EvPost request;
                   EvWrite (py_str (index_4 row));
                   EvPrint (OutSynced (length hl));
                   EvPrint (OutUpdated
                              (fromtimestamp_isoformat (index_4 row)))] |})) \/
  (exists msg response, dry_run_flag env = false /\
   opt_truthy (environ_READWISE_API_TOKEN env) = true /\
   hl <> [] /\ readwise env request = Some (msg, response) /\
   run env file =
     (Raised (RequestException msg response),
      {| last_sync_file := file;
         log := prologue false file ++
           [EvPrint (OutFound (length hl)); EvPrint OutBlank;
            EvPrint (OutPosting (length hl));
            EvPost request] ++ diagnostics msg response |})).
Proof.
  intros hl request. subst hl request.
  destruct (run_path env file)
    as [Hc|Hc Hp|row Hd Hl|row Hd Ht Hl Hok|m resp Hd Ht Hne Hfail].
  - left. split; [done|]. by apply run_missing_token.
  - right; left. split; [done|]. split; [done|]. by apply run_nothing_pending.
  - right; right; left. exists row. split; [done|]. split; [done|].
    by apply run_preview.
  - right; right; right; left. exists row. repeat (split; [done|]).
    by apply run_delivered.
  - right; right; right; right. exists m, resp. repeat (split; [done|]).
    by apply run_failed.
Qed.

(** X3. A preview shows what a real run would send: the batch printed by a
    preview run is the batch that a run with a token posts, on the same
    database and watermark file. *)
Theorem preview_shows_what_is_posted (db : Database) (file : option string)
    (net net' : Request -> option (string * option string))
    (tok tok' : option string) (batch : list dict) :
  opt_truthy tok = true ->
  In (EvPrint (OutPayloadJson batch))
     (log (run {| dry_run_flag := true; environ_READWISE_API_TOKEN := tok';
                  database := db; readwise := net' |} file).2) ->
  exists r,
    In (EvPost r)
       (log (run {| dry_run_flag := false; environ_READWISE_API_TOKEN := tok;
                    database := db; readwise := net |} file).2) /\
    req_highlights r = batch.
Proof.
  intros Htok Hin.
  set (penv := {| dry_run_flag := true; environ_READWISE_API_TOKEN := tok';
                  database := db; readwise := net' |}) in *.
  set (env := {| dry_run_flag := false; environ_READWISE_API_TOKEN := tok;
                 database := db; readwise := net |}).
  assert (Hbatch : batch = map build_readwise_payload (pending db file) /\
                   pending db file <> []).
  { destruct (run_log_cases penv file)
      as [[Hc _]|[(_ & _ & Hrun)|[(row & _ & Hl & Hrun)|
          [(row & Hd & _)|(m & resp & Hd & _)]]]]; try discriminate.
    - rewrite Hrun in Hin. cbn [snd log] in Hin.
      apply in_app_iff in Hin as [Hin|Hin].
      + by apply batch_not_in_prologue in Hin.
      + simpl in Hin. intuition discriminate.
    - rewrite Hrun in Hin. cbn [snd log] in Hin.
      apply in_app_iff in Hin as [Hin|Hin].
      + by apply batch_not_in_prologue in Hin.
      + simpl in Hin.
        destruct Hin as [[=]|[[=]|[[=]|[[= <-]|[[=]|[[=]|[[=]|[]]]]]]]].
        split; [done|]. cbn [database penv] in Hl.
        intros E. by rewrite E in Hl. }
  destruct Hbatch as [-> Hne].
  exists (build_request (pending db file) tok). split; [|done].
  destruct (run_log_cases env file)
    as [[Hc _]|[(_ & Hp & _)|[(row & Hd & _)|
        [(row & _ & _ & _ & _ & Hrun)|(m & resp & _ & _ & _ & _ & Hrun)]]]].
  - unfold credential_ok in Hc. cbn in Hc. by rewrite Htok in Hc.
  - done.
  - discriminate.
  - rewrite Hrun. cbn [snd log]. apply in_app_iff. right. simpl. tauto.
  - rewrite Hrun. cbn [snd log]. apply in_app_iff. right. simpl. tauto.
Qed.

(** X4. Every delivery call goes to the Readwise endpoint, announces JSON,
    carries "Token " followed by the non-empty READWISE_API_TOKEN of the
    environment, and holds one payload per pending record, at least one. *)
Theorem delivery_call_is_authorized_and_nonempty (env : Env)
    (file : option string) (r : Request) :
  In (EvPost r) (log (run env file).2) ->
  exists tok,
    environ_READWISE_API_TOKEN env = Some tok /\ tok <> "" /\
    req_url r = READWISE_API_URL /\
    req_authorization r = "Token " ++ tok /\
    req_content_type r = "application/json" /\
    req_highlights r =
      map build_readwise_payload (pending (database env) file) /\
    length (req_highlights r) = length (pending (database env) file) /\
    req_highlights r <> [].
Proof.
  intros (Hd & Ht & Hne & ->)%delivery_call_inv.
  destruct (environ_READWISE_API_TOKEN env) as [[|c tok]|]; try discriminate.
  exists (String c tok). repeat (split; [done|]). cbn [req_highlights build_request].
  split; [apply length_map|].
  destruct (pending (database env) file); done.
Qed.

(** X5. A run queries the database at most once, posts at most once, and
    writes the watermark file at most as often as it posts. *)
Theorem at_most_one_query_post_write (env : Env) (file : option string) :
  count is_query (log (run env file).2) <= 1 /\
  count is_post (log (run env file).2) <= 1 /\
  count is_write (log (run env file).2) <= count is_post (log (run env file).2).
Proof.
  destruct (run_log_cases env file)
    as [[_ Hrun]|[(_ & _ & Hrun)|[(row & _ & _ & Hrun)|
        [(row & _ & _ & _ & _ & Hrun)|(m & resp & _ & _ & _ & _ & Hrun)]]]];
    rewrite Hrun; cbn [snd log];
    rewrite ?count_app, ?prologue_one_query, ?prologue_no_post,
      ?prologue_no_write, ?diagnostics_no_post, ?diagnostics_no_write,
      ?diagnostics_no_query;
    unfold count; simpl; lia.
Qed.

End RunShape.

Section RunOutcomes.
Context {RT : PyFloat}.

Lemma log_starts_with_prologue (env : Env) (file : option string) :
  credential_ok env = true ->
  exists tl, log (run env file).2 = (prologue (dry_run_flag env) file ++ tl)%list.
Proof.
  intros Hc.
  destruct (run_log_cases env file)
    as [[Hc' _]|[(_ & _ & Hrun)|[(row & Hd & _ & Hrun)|
        [(row & Hd & _ & _ & _ & Hrun)|(m & resp & Hd & _ & _ & _ & Hrun)]]]];
    [congruence|..]; rewrite Hrun, ?Hd; cbn [snd log]; eauto.
Qed.

Lemma pending_after_watermark (db : Database) (file : option string)
    (t : Timestamp) (row : Highlight) :
  watermark_of file = Some t -> row ∈ pending db file -> time_gt t row.
Proof.
  unfold pending, select_since. intros -> Hin.
  rewrite order_by_time_asc_perm in Hin.
  by apply list_elem_of_filter in Hin as [? _].
Qed.



(** X9. A run that is not a preview stops at the missing-credential message
    exactly when READWISE_API_TOKEN is unset or is the empty string. *)
Theorem aborts_iff_token_unset_or_empty (env : Env) (file : option string) :
  dry_run_flag env = false ->
  run env file = (Ok tt, {| last_sync_file := file;
                            log := [EvPrint OutMissingToken] |}) <->
  environ_READWISE_API_TOKEN env = None \/
  environ_READWISE_API_TOKEN env = Some "".
Proof.
  intros Hd. split.
  - intros Hrun.
    destruct (opt_truthy (environ_READWISE_API_TOKEN env)) eqn:Ht.
    + assert (Hc : credential_ok env = true)
        by (unfold credential_ok; by rewrite Ht, orb_true_r).
      destruct (log_starts_with_prologue env file Hc) as [tl Hlog].
      rewrite Hrun, Hd in Hlog. cbn [snd log] in Hlog.
      destruct (prologue_starts_with_exists file) as [tl' E].
      rewrite E in Hlog. discriminate.
    + destruct (environ_READWISE_API_TOKEN env) as [[|c s]|]; auto.
      discriminate.
  - intros Htok. apply run_missing_token. unfold credential_ok.
    rewrite Hd. by destruct Htok as [-> | ->].
Qed.

(** X10. A stored watermark that Python treats as false (0.0) is announced
    as "No previous sync found", yet it is the bound of the query: only
    records strictly after it are pending. *)
Theorem falsy_watermark_still_filters (env : Env) (file : option string)
    (t : Timestamp) :
  credential_ok env = true ->
  watermark_of file = Some t ->
  ts_truthy t = false ->
  In (EvPrint OutNoPreviousSync) (log (run env file).2) /\
  In (EvQuery (Some t)) (log (run env file).2) /\
  Forall (time_gt t) (pending (database env) file).
Proof.
  intros Hc Hwm Hf.
  destruct (log_starts_with_prologue env file Hc) as [tl ->].
  split; [|split].
  - apply in_app_iff. left. unfold prologue. rewrite !in_app_iff.
    right; right. rewrite Hwm. simpl. rewrite Hf. auto.
  - apply in_app_iff. left. rewrite <- Hwm. apply query_in_prologue.
  - apply Forall_forall. intros row Hrow.
    by apply (pending_after_watermark (database env) file).
Qed.

End RunOutcomes.

Section SourceStore.
Context {RT : PyFloat}.

Lemma time_gt_highlight_part (t : Timestamp) (row : Highlight) :
  time_gt t row <-> ts_leb (h_time (highlight_part row)) t = false.
Proof.
  by destruct row as [[[[[[[[id lk] content] note] time] color] url] title] author].
Qed.

Lemma highlight_part_filter (t : Timestamp) (rows : list Highlight) :
  highlight_part <$> filter (time_gt t) rows =
  filter (fun h => ts_leb (h_time h) t = false) (highlight_part <$> rows).
Proof.
  induction rows as [|r rows IH]; [done|].
  rewrite fmap_cons, !filter_cons.
  destruct (decide (time_gt t r)) as [H|H];
    destruct (decide (ts_leb (h_time (highlight_part r)) t = false)) as [H'|H'].
  - by rewrite fmap_cons, IH.
  - by apply time_gt_highlight_part in H.
  - by apply time_gt_highlight_part in H'.
  - done.
Qed.

(** X12. When [link.id] is a key and every highlight refers to a link, the
    query loses and repeats nothing: without a watermark it returns every
    highlight exactly once, with a watermark exactly the highlights whose
    time is strictly greater, each once. *)
Theorem fetch_returns_each_highlight_once (db : Database) :
  referential_integrity db ->
  highlight_part <$> select_all db ≡ₚ highlight db /\
  forall t, highlight_part <$> select_since db t ≡ₚ
            filter (fun h => ts_leb (h_time h) t = false) (highlight db).
Proof.
  intros Hri. unfold select_all, select_since. split.
  - rewrite order_by_time_asc_perm. by rewrite join_keeps_every_highlight.
  - intros t. rewrite order_by_time_asc_perm, highlight_part_filter.
    by rewrite join_keeps_every_highlight.
Qed.

(** X13. Every fetched row pairs a highlight with a link whose id is the
    highlight's linkId; a highlight whose linkId matches no link is never
    fetched. *)
Theorem fetched_rows_pair_highlight_with_link (db : Database)
    (file : option string) (row : Highlight) :
  row ∈ pending db file ->
  exists h l, h ∈ highlight db /\ l ∈ link db /\
              h_linkId h = l_id l /\ row = select_columns h l.
Proof.
  intros Hin.
  assert (Hjoin : row ∈ join_highlight_link db).
  { unfold pending, select_since, select_all in Hin.
    destruct (watermark_of file); rewrite order_by_time_asc_perm in Hin;
      [by apply list_elem_of_filter in Hin as [_ ?] | done]. }
  unfold join_highlight_link in Hjoin.
  apply list_elem_of_bind in Hjoin as (h & Hrow & Hh).
  apply list_elem_of_bind in Hrow as (l & Hrow & Hl).
  destruct (decide (h_linkId h = l_id l)) as [E|NE].
  - apply list_elem_of_singleton in Hrow. eauto 10.
  - by apply elem_of_nil in Hrow.
Qed.

End SourceStore.

Section Resumption.
Context {RT : PyFloat} {ORD : PyFloatOrder RT}.

Lemma time_gt_mono (t t' : Timestamp) (row : Highlight) :
  ts_leb t t' = true -> time_gt t' row -> time_gt t row.
Proof.
  unfold time_gt. intros Hle Hgt.
  destruct (ts_leb (index_4 row) t) eqn:E; [|done].
  by rewrite (ts_leb_trans _ _ _ E Hle) in Hgt.
Qed.

(** X14. Raising the watermark never adds records: the rows fetched since a
    later watermark are among the rows fetched since an earlier one, which
    are among the rows fetched without a watermark (counting repetitions). *)
Theorem later_watermark_fetches_fewer (db : Database) (t t' : Timestamp) :
  ts_leb t t' = true ->
  select_since db t' ⊆+ select_since db t /\
  select_since db t ⊆+ select_all db.
Proof.
  intros Hle. unfold select_since, select_all.
  rewrite !order_by_time_asc_perm. split.
  - rewrite <- (list_filter_filter_l (time_gt t') (time_gt t))
      by (intros x; by apply time_gt_mono).
    apply sublist_submseteq, sublist_filter.
  - apply sublist_submseteq, sublist_filter.
Qed.

(** Every row of the join is at most as late as the last pending row. *)
Lemma last_pending_bounds_join (db : Database) (file : option string)
    (row x : Highlight) :
  last (pending db file) = Some row ->
  x ∈ join_highlight_link db -> time_le x row.
Proof.
  intros Hl Hx.
  assert (Hmax : Forall (fun y => time_le y row) (pending db file))
    by (apply sorted_last_is_max; [apply pending_sorted | done]).
  rewrite Forall_forall in Hmax.
  assert (Hrow : row ∈ pending db file).
  { apply last_Some in Hl as [l' ->]. apply elem_of_app. right. by left. }
  unfold pending, select_since, select_all in *.
  destruct (watermark_of file) as [w|] eqn:Hw.
  - destruct (decide (time_gt w x)) as [Hgt|Hngt].
    + apply Hmax. rewrite order_by_time_asc_perm.
      by apply list_elem_of_filter.
    + rewrite order_by_time_asc_perm in Hrow.
      apply list_elem_of_filter in Hrow as [Hrow _].
      unfold time_gt in Hngt, Hrow. unfold time_le.
      destruct (ts_leb (index_4 x) w) eqn:E; [|done].
      apply (ts_leb_trans _ w); [done|].
      destruct (ts_leb_total w (index_4 row)); [done|congruence].
  - apply Hmax. by rewrite order_by_time_asc_perm.
Qed.


End Resumption.

(** * The script with failing library calls *)

Section LibraryFailures.
Context {RT : PyFloat}.

Lemma py_get_last_sync_time_run (f : Py.Faults) (w : World) :
  Py.get_last_sync_time f w =
    match last_sync_file w, Py.read_error f with
    | Some _, Some name =>
        (Raised (OtherError name),
         {| last_sync_file := last_sync_file w;
            log := log w ++ [EvExists; EvRead] |})
    | _, _ => get_last_sync_time w
    end.
Proof.
  unfold Py.get_last_sync_time, get_last_sync_time, bind, path_exists,
    Py.read_file, read_file.
  destruct w as [[raw|] l]; simpl; [|done].
  destruct (Py.read_error f); [|done]. by rewrite <- app_assoc.
Qed.

Lemma py_get_last_sync_time_ok (f : Py.Faults) (w : World) :
  (is_Some (last_sync_file w) -> Py.read_error f = None) ->
  Py.get_last_sync_time f w = get_last_sync_time w.
Proof.
  intros H. rewrite py_get_last_sync_time_run.
  destruct (last_sync_file w); [|done]. by rewrite H.
Qed.

Lemma py_fetch_new_highlights_run (f : Py.Faults) (db : Database)
    (last_sync_time : option Timestamp) (w : World) :
  Py.fetch_new_highlights f db last_sync_time w =
    match Py.sqlite_error f with
    | Some name =>
        (Raised (OtherError name),
         {| last_sync_file := last_sync_file w;
            log := log w ++ [EvQuery last_sync_time] |})
    | None => fetch_new_highlights db last_sync_time w
    end.
Proof.
  unfold Py.fetch_new_highlights, fetch_new_highlights, bind, emit, raise.
  by destruct (Py.sqlite_error f).
Qed.

Lemma py_build_payloads_ok (f : Py.Faults) (hl : list Highlight) :
  Forall (fun row => Py.fromtimestamp_error f (index_4 row) = None) hl ->
  Py.build_payloads f hl = Ok (map build_readwise_payload hl).
Proof.
  induction 1 as [|row rest Hrow _ IH]; [done|].
  simpl. unfold Py.build_readwise_payload, Py.convert_timestamp_to_iso.
  by rewrite Hrow, IH.
Qed.

Lemma py_convert_ok (f : Py.Faults) (t : Timestamp) (w : World) :
  Py.fromtimestamp_error f t = None ->
  Py.of_result (Py.convert_timestamp_to_iso f t) w =
    (Ok (fromtimestamp_isoformat t), w).
Proof.
  intros H. unfold Py.of_result, Py.convert_timestamp_to_iso. by rewrite H.
Qed.

(** *** Computations without effect on the watermark *)

Lemma harmless_ret {A} (a : A) : Py.harmless (ret a).
Proof. by intros w. Qed.

Lemma harmless_raise {A} (e : Exn) : Py.harmless (raise (A:=A) e).
Proof. by intros w. Qed.

Lemma harmless_of_result {A} (r : Result A) : Py.harmless (Py.of_result r).
Proof. by intros w. Qed.

Lemma harmless_bind {A B} (m : IO A) (k : A -> IO B) :
  Py.harmless m -> (forall a, Py.harmless (k a)) -> Py.harmless (bind m k).
Proof.
  intros Hm Hk w. unfold bind. specialize (Hm w).
  destruct (m w) as [[a|e] w']; cbn [snd] in Hm; [|exact Hm].
  specialize (Hk a w'). destruct Hm as (Hm1 & Hm2 & Hm3).
  by rewrite Hm1, Hm2, Hm3 in Hk.
Qed.

Lemma harmless_emit (e : Event) :
  is_post e = false -> is_write e = false -> Py.harmless (emit e).
Proof.
  intros Hp Hw w. unfold emit. cbn [snd last_sync_file log].
  unfold count. rewrite !List.filter_app, !length_app. simpl.
  rewrite Hp, Hw. simpl. split; [done|]. lia.
Qed.

Lemma harmless_print (o : Output) : Py.harmless (print o).
Proof. by apply harmless_emit. Qed.

Lemma harmless_last_index_4 (hl : list Highlight) :
  Py.harmless (last_index_4 hl).
Proof. unfold last_index_4. destruct (last hl); by intros w. Qed.

Lemma harmless_get_last_sync_time (f : Py.Faults) :
  Py.harmless (Py.get_last_sync_time f).
Proof.
  intros w. rewrite py_get_last_sync_time_run, get_last_sync_time_run.
  assert (Hlog : forall l : list Event,
            Forall (fun e => is_post e = false /\ is_write e = false) l ->
            count is_post (log w ++ l) = count is_post (log w) /\
            count is_write (log w ++ l) = count is_write (log w)).
  { intros l Hl. rewrite !count_app.
    assert (count is_post l = 0 /\ count is_write l = 0) as [-> ->]; [|lia].
    induction Hl as [|e l [Hp Hw] _ [IHp IHw]]; [done|].
    unfold count in *. simpl. by rewrite Hp, Hw. }
  destruct (last_sync_file w) as [raw|] eqn:Hf;
    [destruct (Py.read_error f)|]; cbn [snd last_sync_file log];
    (split; [done|]); apply Hlog; unfold load_events; repeat constructor.
Qed.

Lemma harmless_fetch_new_highlights (f : Py.Faults) (db : Database)
    (wm : option Timestamp) :
  Py.harmless (Py.fetch_new_highlights f db wm).
Proof.
  unfold Py.fetch_new_highlights.
  apply harmless_bind; [by apply harmless_emit|]. intros _.
  destruct (Py.sqlite_error f); [apply harmless_raise|].
  destruct wm; apply harmless_ret.
Qed.

(** A preview run has no effect, whatever fails: it ends, returning or
    raising, with the watermark file as it was and without a delivery call
    or a write. *)
Lemma py_preview_harmless (f : Py.Faults) (env : Env) :
  dry_run_flag env = true -> Py.harmless (Py.main f env).
Proof.
  intros Hd. unfold Py.main. rewrite Hd. cbn [negb andb].
  repeat first
    [ apply harmless_print | apply harmless_ret | apply harmless_raise
    | apply harmless_of_result | apply harmless_last_index_4
    | apply harmless_get_last_sync_time | apply harmless_fetch_new_highlights
    | apply harmless_bind; [|intros ?]
    | match goal with
      | |- Py.harmless (match ?x with _ => _ end) => destruct x
      end ].
Qed.

(** *** When no call fails the script runs as written above *)

Lemma py_run_without_faults (f : Py.Faults) (env : Env) (file : option string) :
  Py.no_fault_before_report f env file ->
  dry_run_flag env = true \/ Py.write_error f = None ->
  Py.run f env file = run env file.
Proof.
  intros (Hread & Hsql & Hwm & Hpend) Hw.
  unfold Py.run, run, Py.main, main.
  destruct (dry_run_flag env) eqn:Hd,
    (opt_truthy (environ_READWISE_API_TOKEN env)) eqn:Ht;
    cbn [negb andb]; try reflexivity.
  all: cbv [bind ret]; cbv [print emit]; cbn [last_sync_file log app].
  all: rewrite py_get_last_sync_time_ok by exact Hread.
  all: rewrite get_last_sync_time_run; cbn [last_sync_file log]; cbv beta iota.
  all: unfold pending in Hpend.
  all: destruct (watermark_of file) as [t|] eqn:Hwmf;
    [destruct (ts_truthy t) eqn:Htt|];
    try (rewrite (py_convert_ok f t) by (by apply Hwm));
    cbv beta iota; cbn [last_sync_file log].
  all: rewrite py_fetch_new_highlights_run, Hsql;
    unfold fetch_new_highlights, bind, emit, ret;
    cbn [last_sync_file log]; cbv beta iota.
  all: match type of Hpend with
       | Forall _ ?rows => destruct rows as [|h rest] eqn:Hsel
       end; [reflexivity|].
  all: unfold Py.of_result at 1; rewrite (py_build_payloads_ok f _ Hpend);
    cbv beta iota; cbn [last_sync_file log].
  all: assert (Hlast : forall row, last (h :: rest) = Some row ->
                 Py.fromtimestamp_error f (index_4 row) = None)
         by (intros row [pre Hrow]%last_Some; rewrite Hrow in Hpend;
             apply Forall_app in Hpend as [_ Hrow'];
             by apply Forall_cons in Hrow' as [? _]).
  all: cbv [try_except_RequestException];
    unfold Py.post_highlights_to_readwise, post_highlights_to_readwise,
      build_request, Py.update_last_sync_time, update_last_sync_time,
      Py.write_file, write_file, last_index_4;
    cbv [bind emit ret raise print Py.of_result];
    rewrite ?(py_build_payloads_ok f _ Hpend);
    cbn [last_sync_file log]; cbv beta iota.
  all: try (destruct (readwise env _) as [[msg response]|]; [reflexivity|]).
  all: destruct (last (h :: rest)) as [row|] eqn:Hrow; [|reflexivity].
  all: unfold Py.convert_timestamp_to_iso; rewrite (Hlast row eq_refl).
  all: try (destruct Hw as [Hw|Hw]; [discriminate|rewrite Hw]).
  all: reflexivity.
Qed.

End LibraryFailures.

Section PreviewAndLoad.
Context {RT : PyFloat}.

Lemma would_update_not_in_prologue (dry : bool) (file : option string)
    (iso : string) :
  ~ In (EvPrint (OutWouldUpdate iso)) (prologue dry file).
Proof.
  intros [H|[H|H]]%prologue_prints; try discriminate.
  destruct (sync_status_cases (watermark_of file)) as [E|[iso' E]];
    rewrite E in H; discriminate.
Qed.

(** C5 (amended). A preview run makes no delivery call and no write and
    leaves the watermark file as it was, whether it returns or raises.
    When none of its calls fails (the watermark file can be read, the
    database answers, [datetime.fromtimestamp] accepts the loaded watermark
    and the pending times) it returns normally and: with N >= 1 pending
    records it prints the batch of the N transformed records, the count N
    and the would-be new watermark, the time of the last record; with no
    pending record it prints the nothing-to-do message and reports neither
    a batch nor a would-be watermark. *)
Theorem preview_run_reports_when_nothing_fails (f : Py.Faults) (env : Env)
    (file : option string) :
  dry_run_flag env = true ->
  (last_sync_file (Py.run f env file).2 = file /\
   count is_post (log (Py.run f env file).2) = 0 /\
   count is_write (log (Py.run f env file).2) = 0) /\
  (Py.no_fault_before_report f env file ->
   let hl := pending (database env) file in
   exists l,
     Py.run f env file = (Ok tt, {| last_sync_file := file; log := l |}) /\
     match last hl with
     | Some row =>
         In (EvPrint (OutPayloadJson (map build_readwise_payload hl))) l /\
         reports_batch l (length hl) /\
         In (EvPrint (OutWouldSync (length hl))) l /\
         In (EvPrint (OutWouldUpdate (fromtimestamp_isoformat (index_4 row)))) l
     | None =>
         In (EvPrint OutNoNewHighlights) l /\
         (forall n, ~ reports_batch l n) /\
         ~ reports_would_be_watermark l
     end).
Proof.
  intros Hd. split.
  { exact (py_preview_harmless f env Hd {| last_sync_file := file; log := [] |}). }
  intros Hquiet hl. subst hl.
  rewrite (py_run_without_faults f env file Hquiet (or_introl Hd)).
  assert (Hc : credential_ok env = true) by (unfold credential_ok; by rewrite Hd).
  destruct (last (pending (database env) file)) as [row|] eqn:Hl.
  - eexists. split; [by apply (run_preview env file row)|].
    assert (Hbatch : In (EvPrint (OutPayloadJson
              (map build_readwise_payload (pending (database env) file))))
            (prologue true file ++
              [EvPrint (OutFound (length (pending (database env) file)));
               EvPrint OutBlank; EvPrint OutWouldPostHeader;
               EvPrint (OutPayloadJson
                 (map build_readwise_payload (pending (database env) file)));
               EvPrint OutBlank;
               EvPrint (OutWouldSync (length (pending (database env) file)));
               EvPrint (OutWouldUpdate (fromtimestamp_isoformat (index_4 row)))]))
      by (apply in_app_iff; right; simpl; tauto).
    split; [exact Hbatch|]. split.
    { eexists. split; [exact Hbatch|]. apply length_map. }
    split; apply in_app_iff; right; simpl; tauto.
  - apply last_None in Hl. eexists.
    split; [by apply run_nothing_pending|]. rewrite Hd.
    split; [apply in_app_iff; right; simpl; tauto|]. split.
    + intros n (batch & [H|H]%in_app_iff & _).
      * by apply batch_not_in_prologue in H.
      * simpl in H. intuition discriminate.
    + intros (iso & [H|H]%in_app_iff).
      * by apply would_update_not_in_prologue in H.
      * simpl in H. intuition discriminate.
Qed.


End PreviewAndLoad.

Section ChangeReaderOnTables.
Context {RT : PyFloat} {ORD : PyFloatOrder RT}.

Lemma highlight_part_select_columns (h : highlight_row) (l : link_row) :
  highlight_part (select_columns h l) = h.
Proof. by destruct h. Qed.

Lemma join_rows_have_their_link (db : Database) (row : Highlight) :
  row ∈ join_highlight_link db ->
  exists l, l ∈ link db /\ l_id l = h_linkId (highlight_part row) /\
            row = select_columns (highlight_part row) l.
Proof.
  unfold join_highlight_link.
  intros (h & Hrow & Hh)%list_elem_of_bind.
  apply list_elem_of_bind in Hrow as (l & Hrow & Hl).
  destruct (decide (h_linkId h = l_id l)) as [E|NE].
  - apply list_elem_of_singleton in Hrow as ->.
    rewrite highlight_part_select_columns. eauto.
  - by apply elem_of_nil in Hrow.
Qed.

Lemma time_le_highlight_part (r1 r2 : Highlight) :
  time_le r1 r2 ->
  ts_leb (h_time (highlight_part r1)) (h_time (highlight_part r2)) = true.
Proof.
  destruct r1 as [[[[[[[[? ?] ?] ?] ?] ?] ?] ?] ?],
           r2 as [[[[[[[[? ?] ?] ?] ?] ?] ?] ?] ?]. done.
Qed.

(** C3. On a database in which [link.id] is a key and every highlight
    refers to a link, [fetch_new_highlights] returns the highlights of the
    table, each exactly once and joined with its link: all of them when the
    watermark is absent, exactly those whose time is strictly greater than
    the watermark when it is present; in both cases in ascending order of
    time.  When SQLite raises, the exception leaves the function. *)
Theorem fetch_new_highlights_returns_the_new_records (f : Py.Faults)
    (db : Database) (last_sync_time : option Timestamp) (w : World) :
  referential_integrity db ->
  match Py.sqlite_error f with
  | Some name =>
      (Py.fetch_new_highlights f db last_sync_time w).1 =
        Raised (OtherError name)
  | None =>
      exists rows,
        Py.fetch_new_highlights f db last_sync_time w =
          (Ok rows, {| last_sync_file := last_sync_file w;
                       log := log w ++ [EvQuery last_sync_time] |}) /\
        highlight_part <$> rows ≡ₚ
          match last_sync_time with
          | None => highlight db
          | Some t => filter (fun h => ts_leb (h_time h) t = false) (highlight db)
          end /\
        StronglySorted (fun h1 h2 => ts_leb (h_time h1) (h_time h2) = true)
                       (highlight_part <$> rows) /\
        Forall (fun row =>
                  exists l, l ∈ link db /\
                            l_id l = h_linkId (highlight_part row) /\
                            row = select_columns (highlight_part row) l)
               rows
  end.
Proof.
  intros Hri. rewrite py_fetch_new_highlights_run.
  destruct (Py.sqlite_error f) as [name|]; [done|].
  assert (Hsorted : forall rows,
            StronglySorted (fun h1 h2 => ts_leb (h_time h1) (h_time h2) = true)
                           (highlight_part <$> order_by_time_asc rows)).
  { intros rows. eapply StronglySorted_fmap; [|apply order_by_time_asc_sorted].
    apply time_le_highlight_part. }
  assert (Hlink : forall rows, (forall r, r ∈ rows -> r ∈ join_highlight_link db) ->
            Forall (fun row =>
                      exists l, l ∈ link db /\
                                l_id l = h_linkId (highlight_part row) /\
                                row = select_columns (highlight_part row) l)
                   (order_by_time_asc rows)).
  { intros rows Hsub. apply Forall_forall. intros r Hr.
    rewrite order_by_time_asc_perm in Hr. by apply join_rows_have_their_link, Hsub. }
  destruct last_sync_time as [t|]; eexists; (split; [reflexivity|]).
  - unfold select_since. split; [|split].
    + rewrite order_by_time_asc_perm, highlight_part_filter.
      by rewrite join_keeps_every_highlight.
    + apply Hsorted.
    + apply Hlink. intros r Hr. by apply list_elem_of_filter in Hr as [_ ?].
  - unfold select_all. split; [|split].
    + rewrite order_by_time_asc_perm. by rewrite join_keeps_every_highlight.
    + apply Hsorted.
    + by apply Hlink.
Qed.

End ChangeReaderOnTables.

(** * Scenarios on the whole-second runtime *)

#[local] Existing Instance whole_seconds.

Lemma whole_seconds_order : PyFloatOrder whole_seconds.
Proof.
  split; simpl.
  - intros a b. rewrite !Z.leb_le. lia.
  - intros a b c. rewrite !Z.leb_le. lia.
Qed.

(** Watermark absent, records at 100, 200 and 300: all three are fetched in
    order, and after a successful delivery the watermark is 300. *)
Example scenario_first_sync :
  index_4 <$> pending sample_db None = [100; 200; 300]%Z /\
  last_sync_file (run delivering_env None).2 = Some "300".
Proof. split; reflexivity. Qed.

(** Watermark 200, records at 100, 200 and 300: exactly the record at 300
    is fetched. *)
Example scenario_incremental :
  index_4 <$> pending sample_db (Some "200") = [300]%Z.
Proof. reflexivity. Qed.

(** The delivery call fails on a network error: the watermark stays and the
    exception reaches the caller. *)
Example scenario_network_error :
  (run offline_env (Some "200")).1 =
    Raised (RequestException "Connection refused" None) /\
  last_sync_file (run offline_env (Some "200")).2 = Some "200".
Proof. split; reflexivity. Qed.

(** Junk, blank and missing watermark files all load as [None]. *)
Example scenario_malformed_watermark :
  (get_last_sync_time (fresh_world (Some "yesterday"))).1 = Ok None /\
  (get_last_sync_time (fresh_world (Some "  "))).1 = Ok None /\
  (get_last_sync_time (fresh_world None)).1 = Ok None /\
  (get_last_sync_time (fresh_world (Some " 200 "))).1 = Ok (Some 200%Z).
Proof. repeat split; reflexivity. Qed.

(** A run after a successful run finds nothing and posts nothing. *)
Example scenario_rerun :
  run delivering_env (last_sync_file (run delivering_env None).2) =
    (Ok tt, @Build_World whole_seconds (Some "300")
       [EvExists; EvRead; EvPrint (OutLastSync "epoch+300s");
        EvQuery (Some 300%Z); EvPrint OutNoNewHighlights]).
Proof. reflexivity. Qed.

(** ** The claims at concrete inputs *)



Lemma empty_fetch_ends_run_untouched_witness :
  exists l,
    run delivering_env (Some "300") =
      (Ok tt, @Build_World whole_seconds (Some "300") l) /\
    count is_post l = 0 /\ count is_write l = 0.
Proof.
  apply (@empty_fetch_ends_run_untouched whole_seconds delivering_env (Some "300")).
  reflexivity.
Defined.

Lemma missing_credential_aborts_before_io_witness :
  run no_token_env (Some "100") =
    (Ok tt, @Build_World whole_seconds (Some "100") [EvPrint OutMissingToken]).
Proof.
  exact (@missing_credential_aborts_before_io whole_seconds no_token_env
           (Some "100") eq_refl).
Defined.

(** ** Where the specification and the script part *)

(** C4, as stated, fails on a row whose title is the empty string: the
    title is present in the row and the payload has no "title" key. *)
Lemma empty_title_is_not_carried_through :
  ~ carried_through_as_specified empty_title_row.
Proof.
  unfold carried_through_as_specified, optional_fields, empty_title_row.
  intros H. inversion_clear H as [|? ? _ H'].
  inversion_clear H' as [|? ? Htitle _].
  vm_compute in Htitle. discriminate.
Qed.

(** ** The further properties at concrete inputs *)

Lemma preview_shows_what_is_posted_witness :
  exists r,
    In (EvPost r) (log (run delivering_env None).2) /\
    req_highlights r = map build_readwise_payload (pending sample_db None).
Proof.
  apply (@preview_shows_what_is_posted whole_seconds sample_db None
           accepting unreachable (Some "tok") None
           (map build_readwise_payload (pending sample_db None))).
  - reflexivity.
  - simpl. do 8 right. left. reflexivity.
Defined.

Lemma delivery_call_is_authorized_and_nonempty_witness :
  exists tok,
    environ_READWISE_API_TOKEN delivering_env = Some tok /\ tok <> "" /\
    req_url (build_request (pending sample_db None) (Some "tok")) =
      READWISE_API_URL /\
    req_authorization (build_request (pending sample_db None) (Some "tok")) =
      "Token " ++ tok /\
    req_content_type (build_request (pending sample_db None) (Some "tok")) =
      "application/json" /\
    req_highlights (build_request (pending sample_db None) (Some "tok")) =
      map build_readwise_payload (pending (database delivering_env) None) /\
    length (req_highlights (build_request (pending sample_db None) (Some "tok"))) =
      length (pending (database delivering_env) None) /\
    req_highlights (build_request (pending sample_db None) (Some "tok")) <> [].
Proof.
  apply (@delivery_call_is_authorized_and_nonempty whole_seconds
           delivering_env None
           (build_request (pending sample_db None) (Some "tok"))).
  simpl. do 6 right. left. reflexivity.
Defined.


Lemma aborts_iff_token_unset_or_empty_witness :
  run no_token_env (Some "100") =
    (Ok tt, @Build_World whole_seconds (Some "100") [EvPrint OutMissingToken]) <->
  environ_READWISE_API_TOKEN no_token_env = None \/
  environ_READWISE_API_TOKEN no_token_env = Some "".
Proof.
  exact (@aborts_iff_token_unset_or_empty whole_seconds no_token_env
           (Some "100") eq_refl).
Defined.

Lemma falsy_watermark_still_filters_witness :
  In (EvPrint OutNoPreviousSync) (log (run delivering_env (Some "0")).2) /\
  In (EvQuery (Some 0%Z)) (log (run delivering_env (Some "0")).2) /\
  Forall (time_gt 0%Z) (pending (database delivering_env) (Some "0")).
Proof.
  apply (@falsy_watermark_still_filters whole_seconds delivering_env
           (Some "0") 0%Z); reflexivity.
Defined.

Lemma fetch_returns_each_highlight_once_witness :
  highlight_part <$> select_all sample_db ≡ₚ highlight sample_db /\
  forall t, highlight_part <$> select_since sample_db t ≡ₚ
            filter (fun h => ts_leb (h_time h) t = false) (highlight sample_db).
Proof.
  apply (@fetch_returns_each_highlight_once whole_seconds sample_db).
  split.
  - simpl. apply (bool_decide_unpack _). reflexivity.
  - intros h Hh. simpl in *.
    apply elem_of_cons in Hh as [->|Hh]; [by left|].
    apply elem_of_cons in Hh as [->|Hh]; [by left|].
    apply elem_of_cons in Hh as [->|Hh]; [by right; left|].
    by apply elem_of_nil in Hh.
Defined.

Lemma fetched_rows_pair_highlight_with_link_witness :
  exists h l, h ∈ highlight sample_db /\ l ∈ link sample_db /\
              h_linkId h = l_id l /\ newest_row = select_columns h l.
Proof.
  apply (@fetched_rows_pair_highlight_with_link whole_seconds sample_db None
           newest_row).
  simpl. right. right. left.
Defined.

Lemma later_watermark_fetches_fewer_witness :
  select_since sample_db 200%Z ⊆+ select_since sample_db 100%Z /\
  select_since sample_db 100%Z ⊆+ select_all sample_db.
Proof.
  apply (@later_watermark_fetches_fewer whole_seconds whole_seconds_order
           sample_db 100%Z 200%Z).
  reflexivity.
Defined.


(** ** The script with failing calls at concrete inputs *)

Lemma preview_run_reports_when_nothing_fails_witness :
  (last_sync_file (Py.run before_year_one preview_env None).2 = None /\
   count is_post (log (Py.run before_year_one preview_env None).2) = 0 /\
   count is_write (log (Py.run before_year_one preview_env None).2) = 0) /\
  exists l,
    Py.run before_year_one preview_env None =
      (Ok tt, @Build_World whole_seconds None l) /\
    In (EvPrint (OutPayloadJson
          (map build_readwise_payload (pending sample_db None)))) l /\
    reports_batch l 3 /\
    In (EvPrint (OutWouldSync 3)) l /\
    In (EvPrint (OutWouldUpdate "epoch+300s")) l.
Proof.
  destruct (@preview_run_reports_when_nothing_fails whole_seconds
              before_year_one preview_env None eq_refl) as [Hframe Hreport].
  split; [exact Hframe|]. apply Hreport.
  split; [intros [? [=]]|]. split; [reflexivity|]. split; [intros t [=]|].
  simpl. repeat constructor.
Defined.

Lemma fetch_new_highlights_returns_the_new_records_witness :
  exists rows,
    Py.fetch_new_highlights Py.no_faults sample_db (Some 200%Z)
        (fresh_world (Some "200")) =
      (Ok rows, @Build_World whole_seconds (Some "200") [EvQuery (Some 200%Z)]) /\
    highlight_part <$> rows ≡ₚ
      filter (fun h => ts_leb (h_time h) 200%Z = false) (highlight sample_db) /\
    StronglySorted (fun h1 h2 => ts_leb (h_time h1) (h_time h2) = true)
                   (highlight_part <$> rows) /\
    Forall (fun row =>
              exists l, l ∈ link sample_db /\
                        l_id l = h_linkId (highlight_part row) /\
                        row = select_columns (highlight_part row) l)
           rows.
Proof.
  apply (@fetch_new_highlights_returns_the_new_records whole_seconds
           whole_seconds_order Py.no_faults sample_db (Some 200%Z)
           (fresh_world (Some "200"))).
  split.
  - simpl. apply (bool_decide_unpack _). reflexivity.
  - intros h Hh. simpl in *.
    apply elem_of_cons in Hh as [->|Hh]; [by left|].
    apply elem_of_cons in Hh as [->|Hh]; [by left|].
    apply elem_of_cons in Hh as [->|Hh]; [by right; left|].
    by apply elem_of_nil in Hh.
Defined.

(** ** Where the specification and the script part, with failing calls *)

(** C5, as stated, fails on a preview run with no pending record, which
    stops at "No new highlights found.", and on a preview run whose
    watermark [datetime.fromtimestamp] rejects, which raises at line 174
    with three records pending: neither reports a batch. *)
Lemma preview_reports_no_batch_when_idle_or_raising :
  ~ Py.preview_reports_as_specified Py.no_faults preview_empty_env None /\
  ~ Py.preview_reports_as_specified before_year_one preview_env
      (Some "-1000000000000").
Proof.
  split; unfold Py.preview_reports_as_specified;
    intros ((batch & Hin & _) & _); simpl in Hin;
    repeat (destruct Hin as [Hin|Hin]; [discriminate|]); exact Hin.
Qed.

